(** * Access control and audit subsystem of the blood-chem-app server

    A shallow embedding of the server's access-control and audit code:
    - [server/middleware/audit.js]: the request-level audit classifier
      ([determineEventType], [determineSeverity], [isPHIAccess],
      [determineResourceType], [extractPHIFields], [extractPurpose]),
      [createAuditEntry], the [auditLogger] send wrapper and
      [createManualAuditEntry];
    - the authentication middleware ([src/unnamed/part_002]):
      [authenticateToken], [requireRole],
      [requireHIPAATraining], [requireDataAccessLevel];
    - [server/routes/auth.js]: the [/login] and [/change-password] handlers
      and the [User] model's password hook;
    - the audit routes ([src/unnamed/part_000]): the [/export/csv] handler.

    JavaScript values are modelled by [jsval]; a thrown exception is the
    [Throw] branch of [result]; the effects the code performs on the audit
    store, the user table and the HTTP response are recorded in a trace by
    the state-and-exception monad [M]. *)

From Stdlib Require Import String Ascii List ZArith Bool Lia QArith.
Import ListNotations.
Open Scope string_scope.
Open Scope Z_scope.
#[local] Set Warnings "-register-all".

(* ------------------------------------------------------------------ *)
(** ** JavaScript values and exceptions *)

Inductive jsval : Type :=
| JUndefined
| JNull
| JBool (b : bool)
| JNum (z : Z)
| JStr (s : string)
| JObj (fields : list (string * jsval))
| JArr (items : list jsval).

(** JavaScript truthiness ([NaN] is not represented: numbers are integers). *)
Definition truthy (v : jsval) : bool :=
  match v with
  | JUndefined | JNull => false
  | JBool b => b
  | JNum z => negb (z =? 0)
  | JStr s => negb (String.eqb s "")
  | JObj _ | JArr _ => true
  end.

Record js_error : Type := mk_error { err_name : string; err_message : string }.

Inductive result (A : Type) : Type :=
| Ok (a : A)
| Throw (e : js_error).
Arguments Ok {A} a.
Arguments Throw {A} e.

Definition rbind {A B} (m : result A) (k : A -> result B) : result B :=
  match m with
  | Ok a => k a
  | Throw e => Throw e
  end.

Notation "x <- m ;; k" := (rbind m (fun x => k))
  (at level 61, m at next level, right associativity).

Fixpoint assoc_lookup (k : string) (fs : list (string * jsval)) : jsval :=
  match fs with
  | [] => JUndefined
  | (k', v) :: fs' => if String.eqb k k' then v else assoc_lookup k fs'
  end.

(** Property read [o.k]: a [TypeError] on [undefined] and [null]; on other
    primitives and arrays the keys read by this code are absent. *)
Definition js_get (o : jsval) (k : string) : result jsval :=
  match o with
  | JUndefined | JNull =>
      Throw (mk_error "TypeError" ("Cannot read properties of null or undefined (reading " ++ k ++ ")"))
  | JObj fs => Ok (assoc_lookup k fs)
  | _ => Ok JUndefined
  end.

(** [s.includes(sub)] *)
Fixpoint includes (s sub : string) : bool :=
  match s with
  | EmptyString => String.prefix sub s
  | String _ s' => String.prefix sub s || includes s' sub
  end.

(* ------------------------------------------------------------------ *)
(** ** Audit vocabulary (the ENUM columns of [models/Audit.js]) *)

Inductive event_type : Type :=
| ev_create | ev_read | ev_update | ev_delete | ev_login | ev_logout
| ev_failed_login | ev_password_change | ev_data_export | ev_data_import
| ev_file_upload | ev_file_download | ev_report_generation
| ev_access_denied | ev_system_error.

Inductive severity_level : Type := sev_low | sev_medium | sev_high | sev_critical.

Inductive audit_status : Type := st_success | st_failure | st_warning.

Inductive resource_type : Type :=
| rt_user | rt_patient | rt_document | rt_report | rt_auth | rt_system.

(* ------------------------------------------------------------------ *)
(** ** The request-level classifier ([middleware/audit.js]) *)

Definition determineEventType (method url : string) : event_type :=
  if includes url "/auth/login" then ev_login
  else if includes url "/auth/logout" then ev_logout
  else if includes url "/auth/refresh" then ev_login
  else if String.eqb method "GET" then ev_read
  else if String.eqb method "POST" then
    (if includes url "/upload" then ev_file_upload
     else if includes url "/export" then ev_data_export
     else if includes url "/report" then ev_report_generation
     else ev_create)
  else if String.eqb method "PUT" then ev_update
  else if String.eqb method "PATCH" then ev_update
  else if String.eqb method "DELETE" then ev_delete
  else ev_read.

Definition determineSeverity (method url : string) (statusCode : Z) : severity_level :=
  if (statusCode =? 401) || (statusCode =? 403) then sev_high
  else if includes url "/patients" || includes url "/documents" then sev_high
  else if includes url "/users" || includes url "/auth" then sev_medium
  else sev_low.

Definition phiEndpoints : list string :=
  ["/patients"; "/documents"; "/reports"; "/lab-results"].

Definition isPHIAccess (url method : string) : bool :=
  existsb (fun endpoint => includes url endpoint) phiEndpoints.

Definition determineResourceType (url : string) : resource_type :=
  if includes url "/patients" then rt_patient
  else if includes url "/documents" then rt_document
  else if includes url "/users" then rt_user
  else if includes url "/reports" then rt_report
  else if includes url "/auth" then rt_auth
  else rt_system.

(** [if (cond) phiFields.push(label)] *)
Definition push_if (c : bool) (label : string) (acc : list string) : list string :=
  if c then app acc [label] else acc.

(** [if (o.k) phiFields.push(label)] *)
Definition check_field (o : jsval) (k label : string) (acc : list string)
  : result (list string) :=
  v <- js_get o k ;; Ok (push_if (truthy v) label acc).

Definition extractPHIFields (body query : jsval) : result (option (list string)) :=
  acc <- (if truthy body then
            acc <- (fn <- js_get body "firstName" ;;
                    if truthy fn then Ok (app [] ["name"])
                    else ln <- js_get body "lastName" ;;
                         Ok (push_if (truthy ln) "name" [])) ;;
            acc <- check_field body "dateOfBirth" "dateOfBirth" acc ;;
            acc <- check_field body "ssn" "ssn" acc ;;
            acc <- check_field body "phone" "phone" acc ;;
            acc <- check_field body "email" "email" acc ;;
            acc <- check_field body "address" "address" acc ;;
            check_field body "medicalHistory" "medicalHistory" acc
          else Ok []) ;;
  acc <- (if truthy query then
            acc <- check_field query "name" "name" acc ;;
            check_field query "dob" "dateOfBirth" acc
          else Ok acc) ;;
  Ok (if (0 <? Z.of_nat (List.length acc))%Z then Some acc else None).

Definition extractPurpose (url method : string) : string :=
  if includes url "/patients" then "patient_care"
  else if includes url "/documents" then "medical_records"
  else if includes url "/reports" then "healthcare_operations"
  else if includes url "/auth" then "authentication"
  else "general_operations".

(** The classified part of an audit entry: event type, severity, outcome,
    PHI flag, PHI field list, resource type and purpose tag. *)
Record draft : Type := mk_draft {
  d_eventType : event_type;
  d_severity : severity_level;
  d_status : audit_status;
  d_phiAccessed : bool;
  d_phiFields : option (list string);
  d_resourceType : resource_type;
  d_purpose : string
}.

(** The classification steps of [createAuditEntry], in source order. *)
Definition classify (method url : string) (statusCode : Z) (body query : jsval)
  : result draft :=
  let eventType := determineEventType method url in
  let severity := determineSeverity method url statusCode in
  let phiAccessed := isPHIAccess url method in
  let resourceType := determineResourceType url in
  let status := if 400 <=? statusCode then st_failure else st_success in
  phiFields <- (if phiAccessed then extractPHIFields body query else Ok None) ;;
  Ok (mk_draft eventType severity status phiAccessed phiFields resourceType
               (extractPurpose url method)).

(* ------------------------------------------------------------------ *)
(** ** Users, audit entries and the effect trace *)

(** The columns of the [User] model that the access-control code reads or
    writes. Dates are milliseconds since the epoch. *)
Record user : Type := mk_user {
  u_id : string;
  u_email : string;
  u_password : string;
  u_role : string;
  u_isActive : bool;
  u_lastLogin : option Z;
  u_passwordChangedAt : option Z;
  u_failedLoginAttempts : Z;
  u_lockedUntil : option Z;
  u_hipaaTrainingCompleted : bool;
  u_dataAccessLevel : string
}.

(** An object passed to [Audit.createEntry]; keys a call site leaves out
    hold the model's defaults ([phiAccessed = false], [null] elsewhere). *)
Record audit_entry : Type := mk_entry {
  ae_userId : option string;
  ae_action : string;
  ae_resource : string;
  ae_eventType : event_type;
  ae_severity : severity_level;
  ae_status : audit_status;
  ae_errorMessage : option jsval;
  ae_phiAccessed : bool;
  ae_phiFields : option (list string);
  ae_resourceType : option resource_type;
  ae_purpose : option string;
  ae_context : string
}.

(** A manual entry as the route and middleware call sites write it. *)
Definition manual_entry (userId : option string) (action resource : string)
    (ev : event_type) (sev : severity_level) (st : audit_status)
    (errorMessage : option string) (context : string) : audit_entry :=
  mk_entry userId action resource ev sev st (option_map JStr errorMessage)
           false None None None context.

(** The audit store: [None] when [Audit.create] resolves, [Some err] when it
    rejects with [err]. *)
Definition audit_store : Type := audit_entry -> option js_error.

(** What the code observably does. *)
Inductive effect : Type :=
| EAudit (e : audit_entry)                        (* Audit.createEntry(e) issued *)
| EConsoleError (label : string) (err : js_error) (* console.error(label, err) *)
| EUnhandledRejection (err : js_error)            (* a rejected promise nobody awaits *)
| ERespond (statusCode : Z) (message : string)    (* res.status(c).json({message}) *)
| ESave (u : user)                                (* user.save() *)
| EComparePassword.                               (* bcrypt.compare evaluated *)

(** State (the trace) and exceptions. *)
Definition M (A : Type) : Type := list effect -> result A * list effect.

Definition mret {A} (a : A) : M A := fun tr => (Ok a, tr).

Definition mbind {A B} (m : M A) (k : A -> M B) : M B :=
  fun tr => match m tr with
            | (Ok a, tr') => k a tr'
            | (Throw e, tr') => (Throw e, tr')
            end.

Definition mthrow {A} (e : js_error) : M A := fun tr => (Throw e, tr).

Definition mlift {A} (r : result A) : M A := fun tr => (r, tr).

Definition mtry {A} (m : M A) (h : js_error -> M A) : M A :=
  fun tr => match m tr with
            | (Throw e, tr') => h e tr'
            | ok => ok
            end.

Definition emit (ef : effect) : M unit := fun tr => (Ok tt, app tr [ef]).

Notation "'do' x <- m ; k" := (mbind m (fun x => k))
  (at level 200, x name, m at level 100, k at level 200).
Notation "m ;> k" := (mbind m (fun _ => k)) (at level 100, right associativity).

Definition run {A} (m : M A) : result A * list effect := m [].

(** [await Audit.createEntry(e)] *)
Definition audit_create (store : audit_store) (e : audit_entry) : M unit :=
  emit (EAudit e) ;>
  match store e with
  | None => mret tt
  | Some err => mthrow err
  end.

(** [Audit.createEntry(e)] without [await] and without [.catch], followed by
    [k], the synchronous rest of the handler: the write is issued first, and
    its rejection, if any, surfaces only after [k] has run. *)
Definition audit_create_detached {A} (store : audit_store) (e : audit_entry) (k : M A)
  : M A :=
  emit (EAudit e) ;>
  do a <- k ;
  match store e with
  | None => mret a
  | Some err => emit (EUnhandledRejection err) ;> mret a
  end.

(** [createManualAuditEntry(e)]: the write's failure is caught and logged. *)
Definition createManualAuditEntry (store : audit_store) (e : audit_entry) : M unit :=
  mtry (audit_create store e)
       (fun err => emit (EConsoleError "Error creating manual audit entry:" err)).

Definition respond (statusCode : Z) (message : string) : M unit :=
  emit (ERespond statusCode message).

(* ------------------------------------------------------------------ *)
(** ** [createAuditEntry] and the [auditLogger] send wrapper *)

Record request : Type := mk_req {
  req_method : string;
  req_originalUrl : string;
  req_body : jsval;
  req_query : jsval;
  req_ip : string;
  req_userAgent : string;
  req_authorization : option string;
  req_user : option user
}.

Definition skipAuditEndpoints : list string :=
  ["/api/health"; "/api/auth/login"; "/api/auth/refresh"; "/favicon.ico"].

(** [responseObj.message || responseObj.error || 'Request failed'], with
    [JSON.parse] given as [json_parse]; a throw inside is caught. *)
Definition response_error_message (json_parse : string -> result jsval)
    (responseData : jsval) : jsval :=
  let attempt :=
    responseObj <- (match responseData with
                    | JStr s => json_parse s
                    | v => Ok v
                    end) ;;
    m <- js_get responseObj "message" ;;
    if truthy m then Ok m
    else er <- js_get responseObj "error" ;;
         Ok (if truthy er then er else JStr "Request failed") in
  match attempt with
  | Ok v => v
  | Throw _ => JStr "Request failed"
  end.

Definition entry_of_draft (req : request) (d : draft) (errorMessage : option jsval)
  : audit_entry :=
  mk_entry (option_map u_id (req_user req))
           (req_method req ++ " " ++ req_originalUrl req)
           (req_originalUrl req)
           (d_eventType d) (d_severity d) (d_status d) errorMessage
           (d_phiAccessed d) (d_phiFields d) (Some (d_resourceType d))
           (Some (d_purpose d)) "API Request".

Definition createAuditEntry (json_parse : string -> result jsval) (store : audit_store)
    (req : request) (statusCode : Z) (responseData : jsval) : M unit :=
  mtry
    (if existsb (fun endpoint => includes (req_originalUrl req) endpoint) skipAuditEndpoints
     then mret tt
     else
       do d <- mlift (classify (req_method req) (req_originalUrl req) statusCode
                               (req_body req) (req_query req)) ;
       let errorMessage :=
         if 400 <=? statusCode
         then Some (response_error_message json_parse responseData) else None in
       audit_create store (entry_of_draft req d errorMessage))
    (fun err => emit (EConsoleError "Error creating audit entry:" err)).

(** What the client receives from [originalSend.call(this, data)]. *)
Record sent_response : Type := mk_sent { sent_status : Z; sent_body : jsval }.

(** The overridden [res.send]: the audit write is started, its rejection is
    caught by [.catch], and the original [send] is called with [data]. The
    first component is the trace of the detached audit task. *)
Definition auditLogger_send (json_parse : string -> result jsval) (store : audit_store)
    (req : request) (statusCode : Z) (data : jsval) : list effect * sent_response :=
  let audit_task :=
    mtry (createAuditEntry json_parse store req statusCode data)
         (fun err => emit (EConsoleError "Audit logging error:" err)) in
  (snd (run audit_task), mk_sent statusCode data).

(* ------------------------------------------------------------------ *)
(** ** Token authentication ([authenticateToken], [src/unnamed/part_002]) *)

(** [s.split(c)] *)
Fixpoint split_on_go (c : ascii) (s cur : string) : list string :=
  match s with
  | EmptyString => [cur]
  | String a s' =>
      if Ascii.eqb a c then cur :: split_on_go c s' EmptyString
      else split_on_go c s' (cur ++ String a EmptyString)
  end.

Definition split_on (c : ascii) (s : string) : list string := split_on_go c s EmptyString.

(** [authHeader && authHeader.split(' ')[1]], [None] when falsy. *)
Definition bearer_token (authHeader : option string) : option string :=
  match authHeader with
  | None => None
  | Some h =>
      if String.eqb h "" then None
      else match nth_error (split_on " "%char h) 1 with
           | Some t => if String.eqb t "" then None else Some t
           | None => None
           end
  end.

(** The payload [jwt.verify] returns: the user id and [iat] in seconds. *)
Record decoded_token : Type := mk_decoded { dec_userId : string; dec_iat : Z }.

(** [user.passwordChangedAt && decoded.iat < user.passwordChangedAt.getTime() / 1000];
    [/] is exact division, so with [p] in milliseconds the comparison
    [iat < p / 1000] is [iat * 1000 < p] (see [stale_token_Q]). *)
Definition stale_token (d : decoded_token) (u : user) : bool :=
  match u_passwordChangedAt u with
  | None => false
  | Some p => dec_iat d * 1000 <? p
  end.

Inductive mw_outcome : Type :=
| Responded
| CalledNext (u : user).

Definition auth_mw_entry (userId : option string) (req : request) (sev : severity_level)
    (msg : string) : audit_entry :=
  manual_entry userId "API_ACCESS" (req_originalUrl req) ev_access_denied sev st_failure
               (Some msg) "Authentication middleware".

(** [verify] is [jwt.verify(token, JWT_SECRET)] (it throws a
    [TokenExpiredError] or a [JsonWebTokenError]); [findByPk] is
    [User.findByPk]. *)
Definition authenticateToken (store : audit_store) (verify : string -> result decoded_token)
    (findByPk : string -> result (option user)) (req : request) : M mw_outcome :=
  mtry
    (match bearer_token (req_authorization req) with
     | None =>
         audit_create store (auth_mw_entry None req sev_high "No token provided") ;>
         respond 401 "Authentication token is required" ;>
         mret Responded
     | Some token =>
         do decoded <- mlift (verify token) ;
         do found <- mlift (findByPk (dec_userId decoded)) ;
         let inactive :=
           audit_create store (auth_mw_entry (Some (dec_userId decoded)) req sev_high
                                             "User not found or inactive") ;>
           respond 401 "User account is inactive or not found" ;>
           mret Responded in
         match found with
         | None => inactive
         | Some u =>
             if negb (u_isActive u) then inactive
             else if stale_token decoded u then
               audit_create store (auth_mw_entry (Some (u_id u)) req sev_medium
                                                 "Token issued before password change") ;>
               respond 401 "Password was changed, please login again" ;>
               mret Responded
             else mret (CalledNext u)
         end
     end)
    (fun error =>
       if String.eqb (err_name error) "TokenExpiredError" then
         audit_create store (auth_mw_entry None req sev_medium "Token expired") ;>
         respond 401 "Token has expired" ;>
         mret Responded
       else if String.eqb (err_name error) "JsonWebTokenError" then
         audit_create store (auth_mw_entry None req sev_high "Invalid token") ;>
         respond 401 "Invalid token" ;>
         mret Responded
       else
         emit (EConsoleError "Authentication error:" error) ;>
         respond 500 "Authentication failed" ;>
         mret Responded).

(* ------------------------------------------------------------------ *)
(** ** The authorization gates ([src/unnamed/part_002]) *)

Definition requireRole (roles : list string) (store : audit_store) (req : request)
  : M mw_outcome :=
  match req_user req with
  | None => respond 401 "Authentication required" ;> mret Responded
  | Some u =>
      if existsb (String.eqb (u_role u)) roles then mret (CalledNext u)
      else
        audit_create_detached store
          (manual_entry (Some (u_id u)) "ROLE_ACCESS" (req_originalUrl req)
             ev_access_denied sev_medium st_failure
             (Some ("Insufficient role. Required: " ++ String.concat ", " roles
                    ++ ", User: " ++ u_role u))
             "Role-based access control")
          (respond 403 "Insufficient permissions" ;>
           mret Responded)
  end.

Definition requireHIPAATraining (store : audit_store) (req : request) : M mw_outcome :=
  match req_user req with
  | None => respond 401 "Authentication required" ;> mret Responded
  | Some u =>
      if u_hipaaTrainingCompleted u then mret (CalledNext u)
      else
        audit_create store
          (manual_entry (Some (u_id u)) "HIPAA_ACCESS" (req_originalUrl req)
             ev_access_denied sev_high st_failure
             (Some "HIPAA training not completed") "HIPAA compliance check") ;>
        respond 403 "HIPAA training must be completed before accessing patient data" ;>
        mret Responded
  end.

(** [accessLevels[level] || 0], for the level names this code meets: the
    three of the [dataAccessLevel] ENUM column and the literals passed as
    [requiredLevel]. A name that is a member of [Object.prototype]
    ([constructor], [toString], ...) would read a function there, which this
    table does not represent. *)
Definition accessLevel (level : string) : Z :=
  if String.eqb level "readonly" then 1
  else if String.eqb level "limited" then 2
  else if String.eqb level "full" then 3
  else 0.

Definition requireDataAccessLevel (requiredLevel : string) (store : audit_store)
    (req : request) : M mw_outcome :=
  match req_user req with
  | None => respond 401 "Authentication required" ;> mret Responded
  | Some u =>
      if accessLevel (u_dataAccessLevel u) <? accessLevel requiredLevel then
        audit_create_detached store
          (manual_entry (Some (u_id u)) "DATA_ACCESS" (req_originalUrl req)
             ev_access_denied sev_medium st_failure
             (Some ("Insufficient data access level. Required: " ++ requiredLevel
                    ++ ", User: " ++ u_dataAccessLevel u))
             "Data access level check")
          (respond 403 "Insufficient data access level" ;>
           mret Responded)
      else mret (CalledNext u)
  end.

(* ------------------------------------------------------------------ *)
(** ** The [/login] and [/change-password] handlers ([routes/auth.js]) *)

Definition auth_error (message : string) : js_error :=
  mk_error "AuthenticationError" message.

Definition validation_error (message : string) : js_error :=
  mk_error "ValidationError" message.

(** [await user.validatePassword(password)]: the bcrypt comparison, with
    [compare] as its outcome. *)
Definition validate_password (compare : user -> string -> bool) (u : user)
    (password : string) : M bool :=
  emit EComparePassword ;> mret (compare u password).

(** [user.lockedUntil && user.lockedUntil > new Date()] *)
Definition isLocked (u : user) (now : Z) : bool :=
  match u_lockedUntil u with
  | Some t => now <? t
  | None => false
  end.

Definition lockoutThreshold : Z := 5.
Definition lockoutDuration : Z := 30 * 60 * 1000.

(** [user.failedLoginAttempts += 1; if (... >= 5) user.lockedUntil = ...] *)
Definition record_failed_attempt (u : user) (now : Z) : user :=
  let n := u_failedLoginAttempts u + 1 in
  mk_user (u_id u) (u_email u) (u_password u) (u_role u) (u_isActive u)
          (u_lastLogin u) (u_passwordChangedAt u) n
          (if lockoutThreshold <=? n then Some (now + lockoutDuration)
           else u_lockedUntil u)
          (u_hipaaTrainingCompleted u) (u_dataAccessLevel u).

(** [user.failedLoginAttempts = 0; user.lockedUntil = null; user.lastLogin = new Date()] *)
Definition record_successful_login (u : user) (now : Z) : user :=
  mk_user (u_id u) (u_email u) (u_password u) (u_role u) (u_isActive u)
          (Some now) (u_passwordChangedAt u) 0 None
          (u_hipaaTrainingCompleted u) (u_dataAccessLevel u).

Definition login_entry (userId : option string) (action : string) (ev : event_type)
    (sev : severity_level) (st : audit_status) (msg : option string) (context : string)
  : audit_entry :=
  manual_entry userId action "/api/auth/login" ev sev st msg context.

(** The [/login] handler. [validation_ok] is the outcome of
    [validationResult(req)], [findByEmail] is [User.findByEmail], [compare]
    the bcrypt comparison and [now] the current time in milliseconds. On
    success it returns the payload of the token it signs. [email] and
    [password] are the body's values when they are strings; a password of
    another type makes bcryptjs reject (see [bcrypt_compare]), a case this
    definition leaves out. *)
Definition login (store : audit_store) (validation_ok : bool)
    (findByEmail : string -> option user) (compare : user -> string -> bool)
    (now : Z) (email password : string) : M decoded_token :=
  if negb validation_ok then mthrow (validation_error "Validation failed")
  else
  match findByEmail email with
  | None =>
      createManualAuditEntry store
        (login_entry None "LOGIN_ATTEMPT" ev_failed_login sev_medium st_failure
                     (Some "User not found") "Login attempt") ;>
      mthrow (auth_error "Invalid email or password")
  | Some u =>
      if isLocked u now then
        createManualAuditEntry store
          (login_entry (Some (u_id u)) "LOGIN_ATTEMPT" ev_access_denied sev_medium
                       st_failure (Some "Account locked") "Login attempt - account locked") ;>
        mthrow (auth_error "Account is temporarily locked due to multiple failed login attempts")
      else
        do isValidPassword <- validate_password compare u password ;
        if negb isValidPassword then
          emit (ESave (record_failed_attempt u now)) ;>
          createManualAuditEntry store
            (login_entry (Some (u_id u)) "LOGIN_ATTEMPT" ev_failed_login sev_medium
                         st_failure (Some "Invalid password") "Login attempt - invalid password") ;>
          mthrow (auth_error "Invalid email or password")
        else if negb (u_isActive u) then
          createManualAuditEntry store
            (login_entry (Some (u_id u)) "LOGIN_ATTEMPT" ev_access_denied sev_high
                         st_failure (Some "Account inactive") "Login attempt - inactive account") ;>
          mthrow (auth_error "Account is inactive")
        else
          let u' := record_successful_login u now in
          emit (ESave u') ;>
          createManualAuditEntry store
            (login_entry (Some (u_id u)) "LOGIN_SUCCESS" ev_login sev_medium st_success
                         None "Successful login") ;>
          respond 200 "Login successful" ;>
          mret (mk_decoded (u_id u') (now / 1000))
  end.

(** [typeof v] *)
Definition js_typeof (v : jsval) : string :=
  match v with
  | JUndefined => "undefined"
  | JNull | JObj _ | JArr _ => "object"
  | JBool _ => "boolean"
  | JNum _ => "number"
  | JStr _ => "string"
  end.

(** [const { k } = o]: a [TypeError] on [undefined] and [null], a property
    read otherwise. *)
Definition js_destructure (o : jsval) (k : string) : result jsval :=
  match o with
  | JUndefined =>
      Throw (mk_error "TypeError" ("Cannot destructure property '" ++ k ++ "' of 'req.body' as it is undefined."))
  | JNull =>
      Throw (mk_error "TypeError" ("Cannot destructure property '" ++ k ++ "' of 'req.body' as it is null."))
  | _ => js_get o k
  end.

(** [v.length]: the length of a string or an array, a property read on the
    other values. *)
Definition js_length (v : jsval) : result jsval :=
  match v with
  | JStr s => Ok (JNum (Z.of_nat (String.length s)))
  | JArr xs => Ok (JNum (Z.of_nat (List.length xs)))
  | _ => js_get v "length"
  end.

(** [await user.validatePassword(v)] on a value of any type: bcryptjs'
    [compare(v, this.password)] compares a string ([compare] gives the
    outcome) and rejects any other value with [Error("Illegal arguments: "
    + typeof v + ", " + typeof hash)], the stored hash being a string. *)
Definition bcrypt_compare (compare : user -> string -> bool) (u : user) (v : jsval)
  : M bool :=
  emit EComparePassword ;>
  match v with
  | JStr s => mret (compare u s)
  | _ => mthrow (mk_error "Error" ("Illegal arguments: " ++ js_typeof v ++ ", string"))
  end.

(** The user saved by [req.user.password = newPassword; await
    req.user.save()]: [stored] is the value the [beforeUpdate] hook wrote
    (the bcrypt hash), and the hook stamps [passwordChangedAt]. *)
Definition password_update (now : Z) (u : user) (stored : string) : user :=
  mk_user (u_id u) (u_email u) stored (u_role u) (u_isActive u)
          (u_lastLogin u) (Some now) (u_failedLoginAttempts u) (u_lockedUntil u)
          (u_hipaaTrainingCompleted u) (u_dataAccessLevel u).

(** [newPassword.length < parseInt(process.env.PASSWORD_MIN_LENGTH) || 12],
    which parses as [(... < ...) || 12]: [minLength] is the parsed variable
    ([None] for [NaN]) and [len] the value of [newPassword.length]; the
    value of the [||] expression is returned. The comparison is computed
    for a number against a number and taken as [false] otherwise; either
    boolean gives a truthy value of the [||]. *)
Definition password_guard (minLength : option Z) (len : jsval) : jsval :=
  let lt := match minLength, len with
            | Some m, JNum n => n <? m
            | _, _ => false
            end in
  if lt then JBool true else JNum 12.

(** The [/change-password] handler. [save] is the outcome of [await
    req.user.save()] after [req.user.password = newPassword] (the model's
    validation and its [beforeUpdate] hook included): the stored hash, or the
    rejection. *)
Definition changePassword (store : audit_store) (save : jsval -> result string)
    (compare : user -> string -> bool) (minLength : option Z) (now : Z)
    (req : request) : M unit :=
  do currentPassword <- mlift (js_destructure (req_body req) "currentPassword") ;
  do newPassword <- mlift (js_destructure (req_body req) "newPassword") ;
  match req_user req with
  | None => mthrow (auth_error "Authentication required")
  | Some u =>
      do isValidPassword <- bcrypt_compare compare u currentPassword ;
      if negb isValidPassword then mthrow (auth_error "Current password is incorrect")
      else
        do len <- mlift (js_length newPassword) ;
        if truthy (password_guard minLength len) then
          mthrow (validation_error "New password does not meet requirements")
        else
          match save newPassword with
          | Throw err => mthrow err
          | Ok stored =>
              emit (ESave (password_update now u stored)) ;>
              createManualAuditEntry store
                (manual_entry (Some (u_id u)) "PASSWORD_CHANGE" "/api/auth/change-password"
                   ev_password_change sev_medium st_success None "Password change") ;>
              respond 200 "Password changed successfully"
          end
  end.

(* ------------------------------------------------------------------ *)
(** ** The audit CSV export ([/export/csv]) *)

Definition dq : ascii := "034"%char.
Definition nl : ascii := "010"%char.

Definition event_type_name (e : event_type) : string :=
  match e with
  | ev_create => "create" | ev_read => "read" | ev_update => "update"
  | ev_delete => "delete" | ev_login => "login" | ev_logout => "logout"
  | ev_failed_login => "failed_login" | ev_password_change => "password_change"
  | ev_data_export => "data_export" | ev_data_import => "data_import"
  | ev_file_upload => "file_upload" | ev_file_download => "file_download"
  | ev_report_generation => "report_generation"
  | ev_access_denied => "access_denied" | ev_system_error => "system_error"
  end.

Definition severity_name (s : severity_level) : string :=
  match s with
  | sev_low => "low" | sev_medium => "medium" | sev_high => "high"
  | sev_critical => "critical"
  end.

Definition status_name (s : audit_status) : string :=
  match s with st_success => "success" | st_failure => "failure" | st_warning => "warning" end.

(** Decimal digits of a non-negative integer. *)
Fixpoint dec_digits (fuel : nat) (n : Z) (acc : string) : string :=
  match fuel with
  | O => acc
  | S f =>
      let acc' := String (ascii_of_nat (48 + Z.to_nat (n mod 10))) acc in
      if n <? 10 then acc' else dec_digits f (n / 10) acc'
  end.

Definition string_of_Z (z : Z) : string :=
  if z <? 0 then "-" ++ dec_digits (Z.to_nat (Z.log2 (- z)) + 1) (- z) EmptyString
  else dec_digits (Z.to_nat (Z.log2 z) + 1) z EmptyString.

(** [String(v)] *)
Fixpoint js_string (v : jsval) : string :=
  match v with
  | JUndefined => "undefined"
  | JNull => "null"
  | JBool b => if b then "true" else "false"
  | JNum z => string_of_Z z
  | JStr s => s
  | JObj _ => "[object Object]"
  | JArr items =>
      String.concat ","
        (map (fun x => match x with JUndefined | JNull => EmptyString | _ => js_string x end)
             items)
  end.

(** A stored audit row, restricted to the exported columns. The timestamp is
    a [Date], whose template rendering [String(date)] is kept as text. *)
Record audit_log : Type := mk_log {
  log_timestamp : string;
  log_userId : option string;
  log_ipAddress : option string;
  log_action : string;
  log_resource : option string;
  log_eventType : event_type;
  log_severity : severity_level;
  log_status : audit_status;
  log_phiAccessed : bool;
  log_errorMessage : option string;
  log_context : option string
}.

Definition opt_str (o : option string) : jsval :=
  match o with Some s => JStr s | None => JNull end.

Definition csvHeaders : list string :=
  ["Timestamp"; "User ID"; "IP Address"; "Action"; "Resource"; "Event Type";
   "Severity"; "Status"; "PHI Accessed"; "Error Message"; "Context"].

(** [[log.timestamp, log.userId, ..., log.context]] *)
Definition log_fields (l : audit_log) : list jsval :=
  [JStr (log_timestamp l); opt_str (log_userId l); opt_str (log_ipAddress l);
   JStr (log_action l); opt_str (log_resource l);
   JStr (event_type_name (log_eventType l)); JStr (severity_name (log_severity l));
   JStr (status_name (log_status l)); JBool (log_phiAccessed l);
   opt_str (log_errorMessage l); opt_str (log_context l)].

(** [`${field || ''}`] *)
Definition field_text (v : jsval) : string :=
  if truthy v then js_string v else EmptyString.

(** [`"${text}"`]: the text between two double quotes. *)
Definition csv_quote (s : string) : string :=
  String dq (s ++ String dq EmptyString).

(** [row.map(field => `"${field || ''}"`).join(',')] *)
Definition csv_line (row : list jsval) : string :=
  String.concat "," (map (fun field => csv_quote (field_text field)) row).

(** [[csvHeaders, ...csvRows].map(...).join('\n')] *)
Definition exportCsv (auditLogs : list audit_log) : string :=
  String.concat (String nl EmptyString)
    (map csv_line (map JStr csvHeaders :: map log_fields auditLogs)).

(** A reader of the documented quoting: a field is either bare or enclosed
    in double quotes, inside which two double quotes stand for one; commas
    separate fields and line feeds separate records. *)
Inductive csv_state : Type := CStart | CBare | CQuoted | CQuoteSeen.

Fixpoint csv_go (s : string) (st : csv_state) (field : string) (row : list string)
    (rows : list (list string)) : list (list string) :=
  match s with
  | EmptyString => app rows [app row [field]]
  | String c s' =>
      let sep_field := Ascii.eqb c ","%char in
      let sep_row := Ascii.eqb c nl in
      match st with
      | CStart =>
          if Ascii.eqb c dq then csv_go s' CQuoted EmptyString row rows
          else if sep_field then csv_go s' CStart EmptyString (app row [field]) rows
          else if sep_row then csv_go s' CStart EmptyString [] (app rows [app row [field]])
          else csv_go s' CBare (field ++ String c EmptyString) row rows
      | CBare | CQuoteSeen =>
          if andb (Ascii.eqb c dq) (match st with CQuoteSeen => true | _ => false end)
          then csv_go s' CQuoted (field ++ String dq EmptyString) row rows
          else if sep_field then csv_go s' CStart EmptyString (app row [field]) rows
          else if sep_row then csv_go s' CStart EmptyString [] (app rows [app row [field]])
          else csv_go s' CBare (field ++ String c EmptyString) row rows
      | CQuoted =>
          if Ascii.eqb c dq then csv_go s' CQuoteSeen field row rows
          else csv_go s' CQuoted (field ++ String c EmptyString) row rows
      end
  end.

Definition csv_parse (s : string) : list (list string) :=
  csv_go s CStart EmptyString [] [].

Fixpoint no_dq (s : string) : bool :=
  match s with
  | EmptyString => true
  | String c s' => negb (Ascii.eqb c dq) && no_dq s'
  end.

(* ------------------------------------------------------------------ *)
(** ** Request bodies and resource identifiers ([middleware/audit.js]) *)

(** [{ ...body }]: the own enumerable properties of [body]; an array or a
    string spreads to its indices, every other primitive to nothing. *)
Definition indexed {A} (xs : list A) : list (string * A) :=
  combine (map (fun i => string_of_Z (Z.of_nat i)) (seq 0 (List.length xs))) xs.

Definition spread (body : jsval) : list (string * jsval) :=
  match body with
  | JObj fs => fs
  | JArr items => indexed items
  | JStr s => indexed (map (fun c => JStr (String c EmptyString)) (list_ascii_of_string s))
  | _ => []
  end.

(** [o[k] = v] on an object: an existing key keeps its place, a new key
    goes last. *)
Fixpoint assoc_set (k : string) (v : jsval) (fs : list (string * jsval))
  : list (string * jsval) :=
  match fs with
  | [] => [(k, v)]
  | (k', v') :: fs' =>
      if String.eqb k k' then (k', v) :: fs' else (k', v') :: assoc_set k v fs'
  end.

Definition sensitiveFields : list string := ["password"; "ssn"; "creditCard"; "cvv"].

(** [if (sanitized[field]) sanitized[field] = '[REDACTED]'] *)
Definition redact_field (sanitized : list (string * jsval)) (field : string)
  : list (string * jsval) :=
  if truthy (assoc_lookup field sanitized)
  then assoc_set field (JStr "[REDACTED]") sanitized
  else sanitized.

Definition sanitizeRequestBody (body : jsval) : jsval :=
  JObj (fold_left redact_field sensitiveFields (spread body)).

(** [[a-f0-9]] *)
Definition is_hex_lower (c : ascii) : bool :=
  let n := nat_of_ascii c in
  (Nat.leb 48 n && Nat.leb n 57) || (Nat.leb 97 n && Nat.leb n 102).

(** [[a-f0-9]{8}-[a-f0-9]{4}-[a-f0-9]{4}-[a-f0-9]{4}-[a-f0-9]{12}], read from
    position [i] of the 36 characters. *)
Fixpoint uuid_go (s : string) (i : nat) : bool :=
  match s with
  | EmptyString => Nat.eqb i 36
  | String c s' =>
      Nat.ltb i 36
      && (if existsb (Nat.eqb i) [8; 13; 18; 23]%nat then Ascii.eqb c "-"%char
          else is_hex_lower c)
      && uuid_go s' (S i)
  end.

Definition is_uuid (s : string) : bool := uuid_go s 0.

(** The group of the pattern when it matches right after a [/]. *)
Definition uuid_after_slash (s : string) : option string :=
  let candidate := substring 0 36 s in
  if is_uuid candidate then Some candidate else None.

(** [url.match(/\/([a-f0-9]{8}-...-[a-f0-9]{12})/)] and [match ? match[1] : null]:
    the leftmost [/] followed by a lower-case UUID. *)
Fixpoint extractResourceId (url : string) : option string :=
  match url with
  | EmptyString => None
  | String c rest =>
      if Ascii.eqb c "/"%char then
        match uuid_after_slash rest with
        | Some id => Some id
        | None => extractResourceId rest
        end
      else extractResourceId rest
  end.

(* ------------------------------------------------------------------ *)
(** ** Session timeout ([checkSessionTimeout], [src/unnamed/part_002]) *)

(** [next()] with the session's [lastActivity] as it is left, or the
    session destroyed and the request answered. *)
Inductive timeout_outcome : Type :=
| TNext (lastActivity : option Z)
| TExpired.

Definition session_timeout_entry (u : user) (req : request) : audit_entry :=
  manual_entry (Some (u_id u)) "SESSION_TIMEOUT" (req_originalUrl req) ev_logout sev_low
               st_success None "Session timeout".

(** [autoLogoutMinutes] is [parseInt(process.env.AUTO_LOGOUT_MINUTES)]
    ([None] for [NaN], with which no comparison holds), [now] is
    [Date.now()] and [lastActivity] is [req.session.lastActivity]. The
    audit write is neither awaited nor caught. *)
Definition checkSessionTimeout (store : audit_store) (autoLogoutMinutes : option Z)
    (now : Z) (req : request) (lastActivity : option Z) : M timeout_outcome :=
  match req_user req with
  | None => mret (TNext lastActivity)
  | Some u =>
      let last := match lastActivity with Some l => l | None => 0 end in
      let expired := match autoLogoutMinutes with
                     | Some m => m * 60 * 1000 <? now - last
                     | None => false
                     end in
      if expired then
        audit_create_detached store (session_timeout_entry u req)
          (respond 401 "Your session has expired. Please login again." ;>
           mret TExpired)
      else mret (TNext (Some now))
  end.

(* ------------------------------------------------------------------ *)
(** ** The gates in front of the report and audit routers
    ([src/unnamed/part_000]) *)

(** [router.use(requireHIPAATraining)] followed by the routes'
    [requireDataAccessLevel('readonly')]. *)
Definition report_routes_gate (store : audit_store) (req : request) : M mw_outcome :=
  do o <- requireHIPAATraining store req ;
  match o with
  | CalledNext _ => requireDataAccessLevel "readonly" store req
  | Responded => mret Responded
  end.

(** [router.use(requireRole(['admin'])); router.use(requireDataAccessLevel('full'))] *)
Definition audit_routes_gate (store : audit_store) (req : request) : M mw_outcome :=
  do o <- requireRole ["admin"] store req ;
  match o with
  | CalledNext _ => requireDataAccessLevel "full" store req
  | Responded => mret Responded
  end.

(* ------------------------------------------------------------------ *)
(** ** The other handlers of [routes/auth.js] *)

(** [User.create({...})] with the model's defaults and its [beforeCreate]
    hook, which hashes a non-empty password and stamps [passwordChangedAt]. *)
Definition created_user (hash : string -> string) (newId email password : string) (now : Z)
  : user :=
  if String.eqb password "" then
    mk_user newId email password "provider" true None None 0 None false "limited"
  else
    mk_user newId email (hash password) "provider" true None (Some now) 0 None false "limited".

(** The [/register] handler. [findByEmail] and [findByNPI] are the model's
    finders, [insert] the outcome of the [INSERT] ([Some err] when it
    rejects), [newId] the generated UUID; it returns the created row. *)
Definition register (store : audit_store) (validation_ok : bool)
    (findByEmail findByNPI : string -> option user) (insert : user -> option js_error)
    (hash : string -> string) (newId : string) (now : Z) (email password npi : string)
  : M user :=
  if negb validation_ok then mthrow (validation_error "Validation failed")
  else
  match findByEmail email with
  | Some _ => mthrow (validation_error "User with this email already exists")
  | None =>
      match findByNPI npi with
      | Some _ => mthrow (validation_error "User with this NPI already exists")
      | None =>
          let u := created_user hash newId email password now in
          match insert u with
          | Some err => mthrow err
          | None =>
              createManualAuditEntry store
                (mk_entry (Some (u_id u)) "USER_REGISTRATION" "/api/auth/register"
                          ev_create sev_medium st_success None false None (Some rt_user)
                          None "User registration") ;>
              respond 201 "User registered successfully" ;>
              mret u
          end
      end
  end.

(** The [/logout] handler; [req.headers.authorization?.split(' ')[1]] is
    falsy exactly when [bearer_token] gives [None]. *)
Definition logout (store : audit_store) (req : request) : M unit :=
  match bearer_token (req_authorization req), req_user req with
  | Some _, Some u =>
      createManualAuditEntry store
        (manual_entry (Some (u_id u)) "LOGOUT" "/api/auth/logout" ev_logout sev_low
                      st_success None "User logout")
  | _, _ => mret tt
  end ;>
  respond 200 "Logout successful".

(** The [/refresh] handler. [verify_refresh] is
    [jwt.verify(refreshToken, JWT_REFRESH_SECRET)], [findByPk] is
    [User.findByPk]; on success it returns the payload of the new token. *)
Definition refresh (verify_refresh : jsval -> result decoded_token)
    (findByPk : string -> result (option user)) (now : Z) (body : jsval)
  : M decoded_token :=
  do refreshToken <- mlift (js_get body "refreshToken") ;
  if negb (truthy refreshToken) then mthrow (auth_error "Refresh token is required")
  else
    mtry
      (do decoded <- mlift (verify_refresh refreshToken) ;
       do found <- mlift (findByPk (dec_userId decoded)) ;
       match found with
       | Some u =>
           if u_isActive u then
             respond 200 "Token refreshed successfully" ;>
             mret (mk_decoded (u_id u) (now / 1000))
           else mthrow (auth_error "Invalid refresh token")
       | None => mthrow (auth_error "Invalid refresh token")
       end)
      (fun _ => mthrow (auth_error "Invalid refresh token")).

(** [req.user.hipaaTrainingCompleted = true] (the training date it also
    sets is a column no access-control code reads). *)
Definition training_update (u : user) : user :=
  mk_user (u_id u) (u_email u) (u_password u) (u_role u) (u_isActive u)
          (u_lastLogin u) (u_passwordChangedAt u) (u_failedLoginAttempts u)
          (u_lockedUntil u) true (u_dataAccessLevel u).

(** The [/complete-hipaa-training] handler. *)
Definition completeHipaaTraining (store : audit_store) (req : request) : M unit :=
  match req_user req with
  | None => mthrow (auth_error "Authentication required")
  | Some u =>
      emit (ESave (training_update u)) ;>
      createManualAuditEntry store
        (mk_entry (Some (u_id u)) "HIPAA_TRAINING_COMPLETED"
                  "/api/auth/complete-hipaa-training" ev_update sev_medium st_success None
                  false None (Some rt_user) None "HIPAA training completion") ;>
      respond 200 "HIPAA training completed successfully"
  end.

Definition allowedFields : list string :=
  ["firstName"; "lastName"; "phone"; "address"; "specialty"].

(** [allowedFields.forEach(field => { if (req.body[field] !== undefined)
    updates[field] = req.body[field]; })] *)
Fixpoint collect_updates (body : jsval) (fields : list string)
    (updates : list (string * jsval)) : result (list (string * jsval)) :=
  match fields with
  | [] => Ok updates
  | field :: rest =>
      v <- js_get body field ;;
      collect_updates body rest
        (match v with JUndefined => updates | _ => app updates [(field, v)] end)
  end.

(** The [PUT /profile] handler; it returns the object it passes to
    [req.user.update]. [update] is the outcome of [await
    req.user.update(updates)]: [None] when it resolves, [Some err] when the
    model's validation or the database rejects it with [err]. *)
Definition updateProfile (store : audit_store)
    (update : list (string * jsval) -> option js_error) (req : request)
  : M (list (string * jsval)) :=
  match req_user req with
  | None => mthrow (auth_error "Authentication required")
  | Some u =>
      do updates <- mlift (collect_updates (req_body req) allowedFields []) ;
      match update updates with
      | Some err => mthrow err
      | None => mret tt
      end ;>
      createManualAuditEntry store
        (mk_entry (Some (u_id u)) "PROFILE_UPDATE" "/api/auth/profile" ev_update sev_low
                  st_success None false None (Some rt_user) None "Profile update") ;>
      respond 200 "Profile updated successfully" ;>
      mret updates
  end.

(* ------------------------------------------------------------------ *)
(** ** The error handler ([src/unnamed/part_001]) *)

(** The properties of a thrown object that [errorHandler] reads. *)
Record thrown : Type := mk_thrown {
  th_name : string;
  th_message : string;
  th_statusCode : option Z;
  th_code : option string;
  th_errors : jsval
}.

(** The status code the constructors of [AppError]'s subclasses set. *)
Definition app_error_status (cls : string) : option Z :=
  if String.eqb cls "ValidationError" then Some 400
  else if String.eqb cls "AuthenticationError" then Some 401
  else if String.eqb cls "AuthorizationError" then Some 403
  else if String.eqb cls "NotFoundError" then Some 404
  else if String.eqb cls "ConflictError" then Some 409
  else None.

(** The object thrown for an error of this development: [err_name] is the
    class of the error. The classes of [errorHandler.js] do not set [name],
    so their instances inherit [Error.prototype.name = 'Error'];
    [ValidationError] sets [errors] (an array), the other classes do not.
    Library errors carry their own [name]. *)
Definition error_object (e : js_error) : thrown :=
  match app_error_status (err_name e) with
  | Some s =>
      mk_thrown "Error" (err_message e) (Some s) None
                (if String.eqb (err_name e) "ValidationError" then JArr [] else JUndefined)
  | None => mk_thrown (err_name e) (err_message e) None None JUndefined
  end.

(** What [res.status(s).json({ error, message, ... })] sends. *)
Record http_reply : Type := mk_reply {
  reply_status : Z;
  reply_error : string;
  reply_message : string
}.

(** [err.code === c] *)
Definition code_is (err : thrown) (c : string) : bool :=
  match th_code err with Some c' => String.eqb c' c | None => false end.

(** [err.errors.map(...)] *)
Definition errors_map (errors : jsval) : result unit :=
  match errors with
  | JArr _ => Ok tt
  | JUndefined | JNull =>
      Throw (mk_error "TypeError" "Cannot read properties of undefined (reading map)")
  | _ => Throw (mk_error "TypeError" "err.errors.map is not a function")
  end.

Definition reply (status : Z) (error message : string) : M http_reply :=
  respond status message ;> mret (mk_reply status error message).

(** [errorHandler(err, req, res, next)] with [node_env] for
    [process.env.NODE_ENV]; the first [console.error] logs the error's
    name and message. *)
Definition errorHandler (store : audit_store) (node_env : string) (req : request)
    (err : thrown) : M http_reply :=
  emit (EConsoleError "Error occurred:" (mk_error (th_name err) (th_message err))) ;>
  createManualAuditEntry store
    (mk_entry (option_map u_id (req_user req)) (req_method req ++ " " ++ req_originalUrl req)
              (req_originalUrl req) ev_system_error sev_high st_failure
              (Some (JStr (th_message err))) false None None None
              "Error handler middleware") ;>
  if String.eqb (th_name err) "ValidationError" then
    reply 400 "Validation Error" (th_message err)
  else if String.eqb (th_name err) "SequelizeValidationError" then
    do _ <- mlift (errors_map (th_errors err)) ;
    reply 400 "Database Validation Error" "Invalid data provided"
  else if String.eqb (th_name err) "SequelizeUniqueConstraintError" then
    do _ <- mlift (errors_map (th_errors err)) ;
    reply 409 "Duplicate Entry" "A record with this information already exists"
  else if String.eqb (th_name err) "SequelizeForeignKeyConstraintError" then
    reply 400 "Reference Error" "Referenced record does not exist"
  else if String.eqb (th_name err) "JsonWebTokenError" then
    reply 401 "Authentication Error" "Invalid or expired token"
  else if String.eqb (th_name err) "TokenExpiredError" then
    reply 401 "Authentication Error" "Token has expired"
  else if String.eqb (th_name err) "MulterError" then
    reply 400 "File Upload Error" (th_message err)
  else if code_is err "ENOENT" then
    reply 404 "File Not Found" "The requested file could not be found"
  else if code_is err "EACCES" then
    reply 403 "Permission Denied" "Access to the requested resource is denied"
  else if code_is err "ECONNREFUSED" then
    reply 503 "Service Unavailable" "Database connection failed"
  else if code_is err "ETIMEDOUT" then
    reply 408 "Request Timeout" "The request timed out"
  else
    let statusCode := match th_statusCode err with
                      | Some s => if s =? 0 then 500 else s
                      | None => 500
                      end in
    let message := if String.eqb (th_message err) "" then "Internal Server Error"
                   else th_message err in
    reply statusCode "Server Error"
          (if String.eqb node_env "production" then "An unexpected error occurred"
           else message).

(** The [/login] route as mounted: [asyncHandler] passes a rejection to
    [next], which reaches [errorHandler], the application's error
    middleware. *)
Definition login_route (store : audit_store) (node_env : string) (req : request)
    (validation_ok : bool) (findByEmail : string -> option user)
    (compare : user -> string -> bool) (now : Z) (email password : string)
  : M unit :=
  mtry (do _ <- login store validation_ok findByEmail compare now email password ; mret tt)
       (fun err => do _ <- errorHandler store node_env req (error_object err) ; mret tt).

(** The message the default branch of [errorHandler] sends. *)
Definition error_reply_message (node_env message : string) : string :=
  if String.eqb node_env "production" then "An unexpected error occurred"
  else if String.eqb message "" then "Internal Server Error" else message.

(** The entry [errorHandler] writes for [err.message]. *)
Definition system_error_entry (req : request) (message : string) : audit_entry :=
  mk_entry (option_map u_id (req_user req)) (req_method req ++ " " ++ req_originalUrl req)
           (req_originalUrl req) ev_system_error sev_high st_failure
           (Some (JStr message)) false None None None "Error handler middleware".

(* ------------------------------------------------------------------ *)
(** ** Concrete inputs *)

Definition demo_store : audit_store := fun _ => None.

Definition demo_failing_store : audit_store :=
  fun _ => Some (mk_error "SequelizeConnectionError" "connect ECONNREFUSED").

Definition demo_json_parse : string -> result jsval := fun _ => Ok (JObj []).

Definition demo_request (method url : string) (u : option user) : request :=
  mk_req method url (JObj []) (JObj []) "10.0.0.1" "curl" None u.

Definition demo_user : user :=
  mk_user "u1" "a@b.c" "hash" "provider" true None (Some 0) 0 None false "readonly".

Definition demo_verify : string -> result decoded_token := fun _ => Ok (mk_decoded "u1" 10).

Definition demo_findByPk : string -> result (option user) := fun _ => Ok (Some demo_user).

Definition demo_provider_req : request :=
  demo_request "GET" "/api/audit" (Some demo_user).

Definition demo_log : audit_log :=
  mk_log "Fri Oct 16 2026 10:00:00 GMT+0000" (Some "u1") (Some "10.0.0.1")
         "GET /api/patients" (Some "/api/patients") ev_read sev_high st_success true
         None (Some "API Request").

(** An entry whose action text holds a double quote. *)
Definition demo_quoted_log : audit_log :=
  mk_log "Fri Oct 16 2026 10:00:00 GMT+0000" (Some "u1") (Some "10.0.0.1")
         ("POST /api/notes?q=" ++ String dq "x") (Some "/api/notes") ev_create sev_low
         st_success false None (Some "API Request").

(** A user locked out after five failures, until [t = 2000000]. *)
Definition demo_locked_user : user :=
  mk_user "u2" "a@b.c" "hash" "provider" true None (Some 0) 5 (Some 2000000) true "full".

Definition demo_find : string -> option user :=
  fun email => if String.eqb email "a@b.c" then Some demo_locked_user else None.

(** A user with three failures and an expired lockout. *)
Definition demo_retry_user : user :=
  mk_user "u3" "c@d.e" "hash" "provider" true None (Some 0) 3 (Some 500) true "full".

Definition demo_find_retry : string -> option user :=
  fun email => if String.eqb email "c@d.e" then Some demo_retry_user else None.

(** A user whose password changed at [t = 5000000]. *)
Definition demo_changed_user : user :=
  mk_user "u4" "f@g.h" "hash" "provider" true None (Some 5000000) 0 None true "full".

Definition demo_token_req : request :=
  mk_req "GET" "/api/patients" (JObj []) (JObj []) "10.0.0.1" "curl" (Some "Bearer tok") None.

Definition demo_patient_post : request :=
  mk_req "POST" "/api/patients" (JObj [("firstName", JStr "Ann")]) (JObj []) "10.0.0.1"
         "curl" None None.

Definition demo_patient_entry : audit_entry :=
  entry_of_draft demo_patient_post
    (mk_draft ev_create sev_high st_success true (Some ["name"]) rt_patient "patient_care")
    None.

(** A patient creation whose only PHI key holds the empty string. *)
Definition demo_patient_blank_post : request :=
  mk_req "POST" "/api/patients" (JObj [("firstName", JStr "")]) (JObj []) "10.0.0.1"
         "curl" None None.

Definition demo_patient_blank_entry : audit_entry :=
  entry_of_draft demo_patient_blank_post
    (mk_draft ev_create sev_high st_success true None rt_patient "patient_care")
    None.

Definition demo_patient_get_other : request :=
  mk_req "GET" "/api/patients" (JObj []) (JObj []) "10.0.0.2" "firefox" (Some "Bearer x")
         (Some demo_user).

Definition demo_patient_get : request := demo_request "GET" "/api/patients" None.


(** A [JSON.parse] that rejects every text. *)
Definition demo_bad_json_parse : string -> result jsval :=
  fun _ => Throw (mk_error "SyntaxError" "Unexpected token").

Definition demo_patient_draft : draft :=
  mk_draft ev_create sev_high st_success true (Some ["name"]) rt_patient "patient_care".

(** A deactivated account. *)
Definition demo_inactive_user : user :=
  mk_user "u6" "i@j.k" "hash" "provider" false None (Some 0) 0 None true "full".

Definition demo_find_inactive : string -> option user :=
  fun email => if String.eqb email "i@j.k" then Some demo_inactive_user else None.

(** A user whose password changed at [t = 5000500]. *)
Definition demo_fresh_user : user :=
  mk_user "u7" "n@o.p" "hash" "provider" true None (Some 5000500) 0 None true "full".

Definition demo_find_fresh : string -> option user :=
  fun email => if String.eqb email "n@o.p" then Some demo_fresh_user else None.

Definition demo_registered_user : user :=
  created_user (fun pw => "hash:" ++ pw) "u8" "q@r.s" "Secret-Pass-1" 0.

Definition demo_profile_req : request :=
  mk_req "PUT" "/api/auth/profile"
         (JObj [("firstName", JStr "Ann"); ("role", JStr "admin"); ("phone", JUndefined)])
         (JObj []) "10.0.0.1" "curl" None (Some demo_user).




(** The rejection of [req.user.update] for a body with [phone: 'abc'] (the
    column's [is] validator). *)
Definition demo_profile_rejection : js_error :=
  mk_error "SequelizeValidationError" "Validation error: Validation is on phone failed".

(* ================================================================== *)
(** * Properties *)

(** ** Trace and result helpers *)

Lemma rbind_ok_inv {A B} (m : result A) (k : A -> result B) (b : B) :
  rbind m k = Ok b -> exists a, m = Ok a /\ k a = Ok b.
Proof. destruct m as [a|e]; simpl; [eauto | discriminate]. Qed.

Lemma rbind_ok_ex {A B} (m : result A) (k : A -> result B) :
  (exists a, m = Ok a) -> (forall a, exists b, k a = Ok b) ->
  exists b, rbind m k = Ok b.
Proof. intros [a ->] Hk. exact (Hk a). Qed.

Lemma js_get_truthy_ok (o : jsval) (k : string) :
  truthy o = true -> exists v, js_get o k = Ok v.
Proof. destruct o; simpl; try discriminate; eauto. Qed.

(** A run appends to the trace it starts from. *)
Lemma createManualAuditEntry_run (store : audit_store) (e : audit_entry) (tr : list effect) :
  createManualAuditEntry store e tr =
  (Ok tt, app tr (EAudit e :: match store e with
                              | None => []
                              | Some err => [EConsoleError "Error creating manual audit entry:" err]
                              end)).
Proof.
  unfold createManualAuditEntry, audit_create, mtry, mbind, emit, mret, mthrow.
  destruct (store e); simpl; [rewrite <- app_assoc|]; reflexivity.
Qed.

(** ** C1: lockout *)

(** C1. A login attempt for an account whose lockout expiry lies in the
    future is rejected with the locked-account error; the password
    comparison is never evaluated and the user row is not saved. A failed
    password check on an unlocked account saves the user with the counter
    incremented and, once the counter reaches 5, the lockout expiry set to
    now plus 30 minutes, and is rejected. *)
Theorem login_lockout_spec (store : audit_store) (findByEmail : string -> option user)
    (email : string) (u : user) (now : Z) :
  findByEmail email = Some u ->
  (forall t, u_lockedUntil u = Some t -> now < t ->
   forall compare password, exists tr,
     run (login store true findByEmail compare now email password) =
       (Throw (auth_error "Account is temporarily locked due to multiple failed login attempts"), tr)
     /\ ~ In EComparePassword tr /\ (forall v, ~ In (ESave v) tr))
  /\
  (isLocked u now = false ->
   forall compare password, compare u password = false ->
   exists tr,
     run (login store true findByEmail compare now email password) =
       (Throw (auth_error "Invalid email or password"), tr)
     /\ In (ESave (record_failed_attempt u now)) tr
     /\ u_failedLoginAttempts (record_failed_attempt u now) = u_failedLoginAttempts u + 1
     /\ (5 <= u_failedLoginAttempts u + 1 ->
         u_lockedUntil (record_failed_attempt u now) = Some (now + 30 * 60 * 1000))).
Proof.
  intros Hfind. split.
  - intros t Ht Hnow compare password.
    assert (Hl : isLocked u now = true) by (unfold isLocked; rewrite Ht; apply Z.ltb_lt; exact Hnow).
    unfold run, login. rewrite Hfind, Hl. cbn [negb].
    unfold mbind at 1. rewrite createManualAuditEntry_run.
    eexists. split; [reflexivity|]. simpl.
    split; [|intros v]; destruct (store _); simpl; intuition discriminate.
  - intros Hl compare password Hc.
    unfold run, login. rewrite Hfind, Hl. cbn [negb].
    unfold validate_password, mbind at 1 2, emit, mret. cbn [app]. rewrite Hc. cbn [negb].
    unfold mbind. cbn beta iota. rewrite createManualAuditEntry_run.
    eexists. split; [reflexivity|]. split; [simpl; auto|].
    unfold record_failed_attempt, lockoutThreshold, lockoutDuration; simpl.
    split; [reflexivity|]. intros H5. apply Z.leb_le in H5. rewrite H5. reflexivity.
Qed.

(** ** The classifier *)

Ltac ok_chain :=
  repeat match goal with
  | |- exists _, rbind _ _ = Ok _ => apply rbind_ok_ex; [|intros ?]
  | |- exists _, (if ?c then _ else _) = Ok _ => destruct c eqn:?
  | |- exists _, Ok _ = Ok _ => eexists; reflexivity
  | H : truthy ?o = true |- exists _, js_get ?o _ = Ok _ => exact (js_get_truthy_ok o _ H)
  | |- exists _, check_field _ _ _ _ = Ok _ => unfold check_field
  end.

Lemma extractPHIFields_total (body query : jsval) :
  exists r, extractPHIFields body query = Ok r.
Proof. unfold extractPHIFields. ok_chain. Qed.

Lemma classify_total (method url : string) (statusCode : Z) (body query : jsval) :
  exists d, classify method url statusCode body query = Ok d.
Proof.
  unfold classify. apply rbind_ok_ex; [|intros; eexists; reflexivity].
  destruct (isPHIAccess url method); [apply extractPHIFields_total | eexists; reflexivity].
Qed.

(** The classified fields of an audit entry. *)
Definition entry_draft (e : audit_entry)
  : event_type * severity_level * audit_status * bool * option (list string)
    * option resource_type * option string :=
  (ae_eventType e, ae_severity e, ae_status e, ae_phiAccessed e, ae_phiFields e,
   ae_resourceType e, ae_purpose e).

Fixpoint audited (tr : list effect) : list audit_entry :=
  match tr with
  | [] => []
  | EAudit e :: tr' => e :: audited tr'
  | _ :: tr' => audited tr'
  end.

Lemma audited_app (tr1 tr2 : list effect) :
  audited (app tr1 tr2) = app (audited tr1) (audited tr2).
Proof. induction tr1 as [|[] tr1 IH]; simpl; try rewrite IH; reflexivity. Qed.

(** The trace of [createAuditEntry]: nothing on the exempt endpoints,
    otherwise one write of the classified entry, followed by a logged error
    when the store rejects it. *)
Lemma createAuditEntry_trace (json_parse : string -> result jsval) (store : audit_store)
    (req : request) (statusCode : Z) (data : jsval) :
  run (createAuditEntry json_parse store req statusCode data) =
  if existsb (fun endpoint => includes (req_originalUrl req) endpoint) skipAuditEndpoints
  then (Ok tt, [])
  else
    match classify (req_method req) (req_originalUrl req) statusCode (req_body req) (req_query req) with
    | Ok d =>
        let e := entry_of_draft req d
                   (if 400 <=? statusCode
                    then Some (response_error_message json_parse data) else None) in
        (Ok tt, EAudit e :: match store e with
                            | None => []
                            | Some err => [EConsoleError "Error creating audit entry:" err]
                            end)
    | Throw err => (Ok tt, [EConsoleError "Error creating audit entry:" err])
    end.
Proof.
  unfold run, createAuditEntry, mtry.
  destruct (existsb _ _); [reflexivity|].
  unfold mbind, mlift. destruct (classify _ _ _ _ _); [|reflexivity].
  unfold audit_create, mbind, emit, mret, mthrow. simpl.
  destruct (store _); reflexivity.
Qed.

(** C3. The classifier is total: on every (method, URL, status code, body,
    query) it returns a draft and never throws, and [createAuditEntry]
    never rejects. It is deterministic: two requests that agree on method,
    URL, body and query and get the same status code yield identical
    classified drafts, whatever their other attributes (user, address,
    agent), response payload, JSON parser or audit store outcome. *)
Theorem classify_total_deterministic :
  (forall method url statusCode body query,
     exists d, classify method url statusCode body query = Ok d)
  /\ (forall json_parse store req statusCode data,
        fst (run (createAuditEntry json_parse store req statusCode data)) = Ok tt)
  /\ (forall json_parse1 json_parse2 store1 store2 req1 req2 statusCode data1 data2,
        req_method req1 = req_method req2 ->
        req_originalUrl req1 = req_originalUrl req2 ->
        req_body req1 = req_body req2 ->
        req_query req1 = req_query req2 ->
        map entry_draft (audited (snd (run (createAuditEntry json_parse1 store1 req1 statusCode data1))))
        = map entry_draft (audited (snd (run (createAuditEntry json_parse2 store2 req2 statusCode data2))))).
Proof.
  split; [exact classify_total|]. split.
  - intros. rewrite createAuditEntry_trace.
    destruct (existsb _ _); [reflexivity|].
    destruct (classify _ _ _ _ _); reflexivity.
  - intros jp1 jp2 st1 st2 r1 r2 sc d1 d2 Hm Hu Hb Hq.
    rewrite !createAuditEntry_trace. rewrite <- Hm, <- Hu, <- Hb, <- Hq.
    destruct (existsb _ _); [reflexivity|].
    destruct (classify_total (req_method r1) (req_originalUrl r1) sc (req_body r1) (req_query r1))
      as [d Hd].
    rewrite Hd. simpl.
    destruct (st1 _); destruct (st2 _); reflexivity.
Qed.

Lemma extractPHIFields_shape (body query : jsval) (r : option (list string)) :
  extractPHIFields body query = Ok r -> r = None \/ exists f fs, r = Some (f :: fs).
Proof.
  unfold extractPHIFields. intros H.
  apply rbind_ok_inv in H as [acc1 [_ H]].
  apply rbind_ok_inv in H as [acc [_ H]].
  injection H as <-. destruct acc as [|f fs]; simpl; [left; reflexivity|].
  right. exists f, fs. reflexivity.
Qed.

(** [o.k] is a falsy value or a [TypeError]. *)
Definition falsy_at (o : jsval) (k : string) : bool :=
  match js_get o k with
  | Ok v => negb (truthy v)
  | Throw _ => true
  end.

Lemma falsy_at_forallb (o : jsval) (ks : list string) :
  (forall k v, In k ks -> js_get o k = Ok v -> truthy v = false)
  <-> forallb (falsy_at o) ks = true.
Proof.
  induction ks as [|k ks IH]; cbn [forallb].
  - split; [reflexivity | intros _ k v []].
  - rewrite andb_true_iff, <- IH. unfold falsy_at. split.
    + intros H. split.
      * destruct (js_get o k) as [v|e] eqn:Hk; [|reflexivity].
        rewrite (H k v (or_introl eq_refl) Hk). reflexivity.
      * intros k' v Hin Hk'. exact (H k' v (or_intror Hin) Hk').
    + intros [H1 H2] k' v [<-|Hin] Hk'.
      * rewrite Hk' in H1. destruct (truthy v); [discriminate|reflexivity].
      * exact (H2 k' v Hin Hk').
Qed.

Lemma falsy_object_falsy_at (o : jsval) (k : string) :
  truthy o = false -> falsy_at o k = true.
Proof. destruct o; cbn; try discriminate; reflexivity. Qed.

Lemma falsy_object_forallb (o : jsval) (ks : list string) :
  truthy o = false -> forallb (falsy_at o) ks = true.
Proof.
  intros H. induction ks as [|k ks IH]; cbn [forallb]; [reflexivity|].
  rewrite falsy_object_falsy_at, IH by exact H. reflexivity.
Qed.

(** [extractPHIFields] gives [null] exactly when every field it tests is
    falsy. *)
Lemma extractPHIFields_none_iff (body query : jsval) (r : option (list string)) :
  extractPHIFields body query = Ok r ->
  (r = None <->
   forallb (falsy_at body) ["firstName"; "lastName"; "dateOfBirth"; "ssn"; "phone";
                            "email"; "address"; "medicalHistory"]
   && forallb (falsy_at query) ["name"; "dob"] = true).
Proof.
  unfold extractPHIFields, check_field. intros H.
  destruct (truthy body) eqn:Hb.
  - destruct (js_get_truthy_ok body "firstName" Hb) as [v1 H1].
    destruct (js_get_truthy_ok body "lastName" Hb) as [v2 H2].
    destruct (js_get_truthy_ok body "dateOfBirth" Hb) as [v3 H3].
    destruct (js_get_truthy_ok body "ssn" Hb) as [v4 H4].
    destruct (js_get_truthy_ok body "phone" Hb) as [v5 H5].
    destruct (js_get_truthy_ok body "email" Hb) as [v6 H6].
    destruct (js_get_truthy_ok body "address" Hb) as [v7 H7].
    destruct (js_get_truthy_ok body "medicalHistory" Hb) as [v8 H8].
    rewrite H1, H2, H3, H4, H5, H6, H7, H8 in H. cbn [rbind] in H.
    cbn [forallb]. unfold falsy_at at 1 2 3 4 5 6 7 8.
    rewrite H1, H2, H3, H4, H5, H6, H7, H8.
    destruct (truthy query) eqn:Hq.
    + destruct (js_get_truthy_ok query "name" Hq) as [v9 H9].
      destruct (js_get_truthy_ok query "dob" Hq) as [v10 H10].
      rewrite H9, H10 in H. cbn [rbind] in H. unfold falsy_at. rewrite H9, H10.
      destruct (truthy v1), (truthy v2), (truthy v3), (truthy v4), (truthy v5),
        (truthy v6), (truthy v7), (truthy v8), (truthy v9), (truthy v10);
        cbn in H; injection H as <-; cbn; split; intro; congruence.
    + rewrite (falsy_object_falsy_at query "name" Hq), (falsy_object_falsy_at query "dob" Hq).
      destruct (truthy v1), (truthy v2), (truthy v3), (truthy v4), (truthy v5),
        (truthy v6), (truthy v7), (truthy v8);
        cbn in H; injection H as <-; cbn; split; intro; congruence.
  - rewrite (falsy_object_forallb body _ Hb). cbn [andb rbind] in *.
    destruct (truthy query) eqn:Hq.
    + destruct (js_get_truthy_ok query "name" Hq) as [v9 H9].
      destruct (js_get_truthy_ok query "dob" Hq) as [v10 H10].
      rewrite H9, H10 in H. cbn [rbind] in H. cbn [forallb]. unfold falsy_at. rewrite H9, H10.
      destruct (truthy v9), (truthy v10); cbn in H; injection H as <-; cbn; split; intro; congruence.
    + rewrite (falsy_object_forallb query _ Hq). cbn in H. injection H as <-.
      split; reflexivity.
Qed.

(** The entries [createAuditEntry] writes are the entries of the classified
    drafts. *)
Lemma createAuditEntry_written (json_parse : string -> result jsval) (store : audit_store)
    (req : request) (statusCode : Z) (data : jsval) (e : audit_entry) :
  In (EAudit e) (snd (run (createAuditEntry json_parse store req statusCode data))) ->
  existsb (fun endpoint => includes (req_originalUrl req) endpoint) skipAuditEndpoints = false
  /\ exists d, classify (req_method req) (req_originalUrl req) statusCode
                        (req_body req) (req_query req) = Ok d
        /\ ae_eventType e = d_eventType d /\ ae_severity e = d_severity d
        /\ ae_status e = d_status d /\ ae_phiAccessed e = d_phiAccessed d
        /\ ae_phiFields e = d_phiFields d.
Proof.
  rewrite createAuditEntry_trace. intros H.
  destruct (existsb _ _); [simpl in H; contradiction|].
  split; [reflexivity|].
  destruct (classify _ _ _ _ _) as [d|err] eqn:Hc.
  - simpl in H. destruct H as [H|H].
    + injection H as <-. exists d. repeat split; reflexivity.
    + destruct (store _); simpl in H; [|contradiction]. destruct H as [H|H]; [discriminate|contradiction].
  - simpl in H. destruct H as [H|H]; [discriminate|contradiction].
Qed.

Lemma classify_phiFields (method url : string) (statusCode : Z) (body query : jsval) (d : draft) :
  classify method url statusCode body query = Ok d ->
  d_phiAccessed d = isPHIAccess url method
  /\ d_status d = (if 400 <=? statusCode then st_failure else st_success)
  /\ (d_phiAccessed d = true -> extractPHIFields body query = Ok (d_phiFields d)).
Proof.
  unfold classify. intros H. apply rbind_ok_inv in H as [pf [Hpf H]].
  injection H as <-. simpl. repeat split.
  intros Hphi. rewrite Hphi in Hpf. exact Hpf.
Qed.

(** ** C4: PHI field lists *)

(** C4 (as claimed: fails). A successful [GET /api/patients] without a body
    or query keys is written with [phiAccessed = true] and [phiFields = null]. *)
Lemma createAuditEntry_phi_without_fields :
  exists e, In (EAudit e) (snd (run (createAuditEntry demo_json_parse demo_store
                                       demo_patient_get 200 (JStr "ok"))))
            /\ ae_phiAccessed e = true /\ ae_phiFields e = None.
Proof. vm_compute. eexists. split; [left; reflexivity | split; reflexivity]. Qed.

(** C4 (amended). Every entry the request-level classifier writes with
    [phiAccessed = true] carries either a non-empty list of PHI field names
    or [null], never an empty list; it is [null] exactly when none of the
    fields the extractor tests has a truthy value: [firstName], [lastName],
    [dateOfBirth], [ssn], [phone], [email], [address], [medicalHistory] of
    the body, [name] and [dob] of the query. *)
Theorem createAuditEntry_phi_fields_null_or_nonempty
    (json_parse : string -> result jsval) (store : audit_store)
    (req : request) (statusCode : Z) (data : jsval) (e : audit_entry) :
  In (EAudit e) (snd (run (createAuditEntry json_parse store req statusCode data))) ->
  ae_phiAccessed e = true ->
  (ae_phiFields e = None \/ exists f fs, ae_phiFields e = Some (f :: fs))
  /\ (ae_phiFields e = None <->
      (forall k v, In k ["firstName"; "lastName"; "dateOfBirth"; "ssn"; "phone";
                         "email"; "address"; "medicalHistory"] ->
                   js_get (req_body req) k = Ok v -> truthy v = false)
      /\ (forall k v, In k ["name"; "dob"] ->
                      js_get (req_query req) k = Ok v -> truthy v = false)).
Proof.
  intros Hin Hphi.
  destruct (createAuditEntry_written _ _ _ _ _ _ Hin) as [_ [d [Hc [_ [_ [_ [Hp Hf]]]]]]].
  destruct (classify_phiFields _ _ _ _ _ _ Hc) as [_ [_ Hx]].
  assert (He : extractPHIFields (req_body req) (req_query req) = Ok (ae_phiFields e)).
  { rewrite Hf. apply Hx. rewrite <- Hp. exact Hphi. }
  split; [exact (extractPHIFields_shape _ _ _ He)|].
  rewrite (extractPHIFields_none_iff _ _ _ He), andb_true_iff, <- !falsy_at_forallb.
  reflexivity.
Qed.

(** ** C9: outcome *)

(** C9. Every entry written by the request-level classifier has outcome
    [failure] exactly when the status code is at least 400 and [success]
    otherwise; it is never [warning]. *)
Theorem createAuditEntry_status_from_code
    (json_parse : string -> result jsval) (store : audit_store)
    (req : request) (statusCode : Z) (data : jsval) (e : audit_entry) :
  In (EAudit e) (snd (run (createAuditEntry json_parse store req statusCode data))) ->
  ae_status e = (if 400 <=? statusCode then st_failure else st_success)
  /\ ae_status e <> st_warning.
Proof.
  intros Hin.
  destruct (createAuditEntry_written _ _ _ _ _ _ Hin) as [_ [d [Hc [_ [_ [Hs _]]]]]].
  destruct (classify_phiFields _ _ _ _ _ _ Hc) as [_ [Hst _]].
  rewrite Hs, Hst. split; [reflexivity|].
  destruct (400 <=? statusCode); discriminate.
Qed.

(** ** C10: exempt endpoints *)

Lemma auditLogger_send_trace (json_parse : string -> result jsval) (store : audit_store)
    (req : request) (statusCode : Z) (data : jsval) :
  auditLogger_send json_parse store req statusCode data
  = (snd (run (createAuditEntry json_parse store req statusCode data)), mk_sent statusCode data).
Proof.
  unfold auditLogger_send, run, mtry.
  pose proof (createAuditEntry_trace json_parse store req statusCode data) as H.
  unfold run in H. rewrite H.
  destruct (existsb _ _); [reflexivity|].
  destruct (classify _ _ _ _ _); [|reflexivity].
  destruct (store _); reflexivity.
Qed.

(** C10. For every request whose URL contains one of the exempt endpoints
    [/api/health], [/api/auth/login], [/api/auth/refresh] or [/favicon.ico],
    the audit middleware writes no entry at all (its trace is empty), while
    the response is sent unchanged. *)
Theorem auditLogger_skips_exempt_endpoints
    (json_parse : string -> result jsval) (store : audit_store)
    (req : request) (statusCode : Z) (data : jsval) (endpoint : string) :
  In endpoint skipAuditEndpoints ->
  includes (req_originalUrl req) endpoint = true ->
  auditLogger_send json_parse store req statusCode data = ([], mk_sent statusCode data).
Proof.
  intros Hin Hinc. rewrite auditLogger_send_trace, createAuditEntry_trace.
  replace (existsb _ skipAuditEndpoints) with true; [reflexivity|].
  symmetry. apply existsb_exists. exists endpoint. split; assumption.
Qed.

(** ** C2: audit persistence failures *)

(** On the request-level path the response sent is [originalSend(data)],
    whatever the audit store does. *)
Lemma auditLogger_send_response (json_parse : string -> result jsval) (store : audit_store)
    (req : request) (statusCode : Z) (data : jsval) :
  snd (auditLogger_send json_parse store req statusCode data) = mk_sent statusCode data.
Proof. reflexivity. Qed.

(** C2 (code defect). [authenticateToken] awaits [Audit.createEntry] inside
    its [try]: for a request without a token, an accepting store yields the
    401 response, while a store rejecting with a connection error turns it
    into a 500. *)
Theorem authenticateToken_audit_failure_changes_response :
  let req := demo_request "GET" "/api/patients" None in
  In (ERespond 401 "Authentication token is required")
     (snd (run (authenticateToken demo_store demo_verify demo_findByPk req)))
  /\ In (ERespond 500 "Authentication failed")
        (snd (run (authenticateToken demo_failing_store demo_verify demo_findByPk req)))
  /\ ~ In (ERespond 401 "Authentication token is required")
          (snd (run (authenticateToken demo_failing_store demo_verify demo_findByPk req))).
Proof.
  vm_compute. split; [|split].
  - right. left. reflexivity.
  - right. right. left. reflexivity.
  - intros [H|[H|[H|H]]]; try discriminate H; exact H.
Qed.

(** ** C6: tokens issued before a password change *)

(** [iat < p / 1000] over the rationals is [iat * 1000 < p]. *)
Lemma stale_token_Q (iat p : Z) :
  (inject_Z iat < p # 1000)%Q <-> iat * 1000 < p.
Proof. unfold Qlt, inject_Z. simpl. lia. Qed.

Ltac run_out store :=
  repeat (first [ progress cbn beta iota zeta
                | destruct (store _)
                | destruct (String.eqb _ _) ]).

(** C6. A token whose issuance time [t] (milliseconds; the token carries
    [iat = floor(t / 1000)]) is earlier than the user's [passwordChangedAt]
    never lets the request through, even when [jwt.verify] accepts it as
    unexpired: the middleware never calls [next]. *)
Theorem authenticateToken_rejects_stale_token
    (store : audit_store) (verify : string -> result decoded_token)
    (findByPk : string -> result (option user)) (req : request)
    (token : string) (d : decoded_token) (u : user) (t p : Z) :
  bearer_token (req_authorization req) = Some token ->
  verify token = Ok d ->
  findByPk (dec_userId d) = Ok (Some u) ->
  u_passwordChangedAt u = Some p ->
  dec_iat d = t / 1000 ->
  t < p ->
  forall v, fst (run (authenticateToken store verify findByPk req)) <> Ok (CalledNext v).
Proof.
  intros Hb Hv Hf Hp Hiat Htp v.
  assert (Hs : stale_token d u = true).
  { unfold stale_token. rewrite Hp. apply Z.ltb_lt. rewrite Hiat.
    pose proof (Z.mul_div_le t 1000). lia. }
  unfold run, authenticateToken, mtry. rewrite Hb.
  unfold mbind at 1 2, mlift. rewrite Hv, Hf. cbn beta iota.
  destruct (u_isActive u); cbn [negb]; [rewrite Hs|];
  unfold audit_create, respond, emit, mret, mthrow, mbind; run_out store; discriminate.
Qed.

(** ** C8: authorization denials *)

(** C8 (as claimed: fails). A provider denied by [requireRole(['admin'])]
    is audited with severity [medium], not [high]. *)
Lemma requireRole_denial_not_high :
  exists e rest,
    snd (run (requireRole ["admin"] demo_store demo_provider_req)) = EAudit e :: rest
    /\ ae_eventType e = ev_access_denied /\ ae_severity e = sev_medium
    /\ ae_severity e <> sev_high.
Proof. vm_compute. do 2 eexists. split; [reflexivity|]. repeat split; discriminate. Qed.

(** C8 (amended). Every authorization denial first issues an
    [access_denied] audit write and then answers 403: a missing role and an
    insufficient data-access level are audited with severity [medium]
    (the write is not awaited, the 403 follows it in any case), a missing
    HIPAA training with severity [high] (the write is awaited, and the 403
    follows it once the store accepts it). *)
Theorem authorization_denials_audited
    (store : audit_store) (req : request) (u : user) :
  req_user req = Some u ->
  (forall roles, existsb (String.eqb (u_role u)) roles = false ->
     exists e rest,
       snd (run (requireRole roles store req)) = EAudit e :: rest
       /\ ae_eventType e = ev_access_denied /\ ae_severity e = sev_medium
       /\ In (ERespond 403 "Insufficient permissions") rest)
  /\ (u_hipaaTrainingCompleted u = false ->
      exists e rest,
        snd (run (requireHIPAATraining store req)) = EAudit e :: rest
        /\ ae_eventType e = ev_access_denied /\ ae_severity e = sev_high
        /\ (store e = None ->
            rest = [ERespond 403 "HIPAA training must be completed before accessing patient data"]))
  /\ (forall requiredLevel,
        accessLevel (u_dataAccessLevel u) < accessLevel requiredLevel ->
        exists e rest,
          snd (run (requireDataAccessLevel requiredLevel store req)) = EAudit e :: rest
          /\ ae_eventType e = ev_access_denied /\ ae_severity e = sev_medium
          /\ In (ERespond 403 "Insufficient data access level") rest).
Proof.
  intros Hu. split; [|split].
  - intros roles Hr. unfold run, requireRole. rewrite Hu, Hr.
    unfold audit_create_detached, respond, emit, mret, mbind.
    destruct (store _); cbn; do 2 eexists; (split; [reflexivity|]);
      repeat split; simpl; auto.
  - intros Ht. unfold run, requireHIPAATraining. rewrite Hu, Ht.
    unfold audit_create, respond, emit, mret, mthrow, mbind.
    destruct (store _) eqn:Hs; cbn; do 2 eexists; (split; [reflexivity|]);
      repeat split; intros Hn; rewrite Hn in Hs; discriminate || reflexivity.
  - intros lvl Hl. unfold run, requireDataAccessLevel. rewrite Hu.
    apply Z.ltb_lt in Hl. rewrite Hl.
    unfold audit_create_detached, respond, emit, mret, mbind.
    destruct (store _); cbn; do 2 eexists; (split; [reflexivity|]);
      repeat split; simpl; auto.
Qed.

(** ** C7: resetting the failure counter *)


(** Every run of [/change-password] throws, after at most the password
    comparison: the length check reads [(newPassword.length < min) || 12],
    which is always truthy, so the save is never reached. *)
Lemma changePassword_run (store : audit_store) (save : jsval -> result string)
    (compare : user -> string -> bool) (minLength : option Z) (now : Z) (req : request) :
  exists err,
    run (changePassword store save compare minLength now req) = (Throw err, [])
    \/ run (changePassword store save compare minLength now req) = (Throw err, [EComparePassword]).
Proof.
  unfold run, changePassword, mbind, mlift.
  destruct (js_destructure (req_body req) "currentPassword") as [cur|e];
    [|exists e; left; reflexivity].
  destruct (js_destructure (req_body req) "newPassword") as [nw|e];
    [|exists e; left; reflexivity].
  destruct (req_user req) as [u|]; [|eexists; left; reflexivity].
  unfold bcrypt_compare, mbind, emit, mret, mthrow. cbn beta iota.
  destruct cur; try (eexists; right; reflexivity).
  destruct (compare u s); cbn [negb app]; [|eexists; right; reflexivity].
  destruct (js_length nw) as [len|e]; [|exists e; right; reflexivity].
  unfold password_guard. destruct minLength as [m|]; [destruct len|];
    try destruct (_ <? _); cbn; eexists; right; reflexivity.
Qed.

Lemma changePassword_no_save (store : audit_store) (save : jsval -> result string)
    (compare : user -> string -> bool) (minLength : option Z) (now : Z) (req : request) :
  (forall v, ~ In (ESave v) (snd (run (changePassword store save compare minLength now req))))
  /\ audited (snd (run (changePassword store save compare minLength now req))) = [].
Proof.
  destruct (changePassword_run store save compare minLength now req) as [err [H|H]];
    rewrite H; cbn; split; try reflexivity; intros v Hin; cbn in Hin; intuition congruence.
Qed.


(** ** C5: the CSV export *)

Lemma str_app_assoc (a b c : string) : (a ++ b) ++ c = a ++ (b ++ c).
Proof. induction a as [|x a IH]; simpl; [reflexivity | rewrite IH; reflexivity]. Qed.

Lemma str_app_empty_r (a : string) : a ++ EmptyString = a.
Proof. induction a as [|x a IH]; simpl; [reflexivity | rewrite IH; reflexivity]. Qed.

(** Reading the inside of a quoted field without quotes. *)
Lemma csv_go_quoted (t c field : string) (row : list string) (rows : list (list string)) :
  no_dq t = true ->
  csv_go (t ++ String dq c) CQuoted field row rows = csv_go c CQuoteSeen (field ++ t) row rows.
Proof.
  revert field. induction t as [|a t IH]; intros field Ht.
  - simpl. rewrite str_app_empty_r. reflexivity.
  - simpl in Ht. apply andb_prop in Ht as [Ha Ht]. apply negb_true_iff in Ha.
    simpl. rewrite Ha. rewrite IH by exact Ht.
    rewrite str_app_assoc. reflexivity.
Qed.

Lemma csv_go_start_dq (s : string) (row : list string) (rows : list (list string)) :
  csv_go (String dq s) CStart EmptyString row rows = csv_go s CQuoted EmptyString row rows.
Proof. reflexivity. Qed.

Lemma csv_go_seen_comma (s f : string) (row : list string) (rows : list (list string)) :
  csv_go (String ","%char s) CQuoteSeen f row rows
  = csv_go s CStart EmptyString (app row [f]) rows.
Proof. reflexivity. Qed.

Lemma csv_go_seen_nl (s f : string) (row : list string) (rows : list (list string)) :
  csv_go (String nl s) CQuoteSeen f row rows
  = csv_go s CStart EmptyString [] (app rows [app row [f]]).
Proof. reflexivity. Qed.

Definition quoted_line (texts : list string) : string :=
  String.concat "," (map csv_quote texts).

Lemma csv_go_line (ts : list string) (c : string) (row : list string)
    (rows : list (list string)) :
  ts <> [] -> forallb no_dq ts = true ->
  csv_go (quoted_line ts ++ c) CStart EmptyString row rows
  = csv_go c CQuoteSeen (last ts EmptyString) (app row (removelast ts)) rows.
Proof.
  revert row. induction ts as [|t ts IH]; intros row Hne Hq; [congruence|].
  simpl in Hq. apply andb_prop in Hq as [Ht Hq].
  destruct ts as [|t2 ts].
  - change (quoted_line [t]) with (String dq (t ++ String dq EmptyString)).
    cbn [String.append]. rewrite str_app_assoc. cbn [String.append].
    rewrite csv_go_start_dq, csv_go_quoted by exact Ht.
    simpl. rewrite app_nil_r. reflexivity.
  - change (quoted_line (t :: t2 :: ts))
      with (String dq (t ++ String dq EmptyString) ++ ("," ++ quoted_line (t2 :: ts))).
    cbn [String.append]. rewrite !str_app_assoc. cbn [String.append].
    rewrite csv_go_start_dq, csv_go_quoted by exact Ht.
    rewrite csv_go_seen_comma.
    rewrite IH by (discriminate || exact Hq).
    simpl last. rewrite <- app_assoc. reflexivity.
Qed.

Lemma csv_go_lines (lines : list (list string)) (rows : list (list string)) :
  lines <> [] ->
  forallb (fun l => negb (Nat.eqb (List.length l) 0) && forallb no_dq l) lines = true ->
  csv_go (String.concat (String nl EmptyString) (map quoted_line lines)) CStart EmptyString [] rows
  = app rows lines.
Proof.
  revert rows. induction lines as [|l lines IH]; intros rows Hne Hq; [congruence|].
  simpl in Hq. apply andb_prop in Hq as [Hl Hq]. apply andb_prop in Hl as [Hl0 Hl].
  assert (Hl' : l <> []) by (intros ->; discriminate).
  destruct lines as [|l2 lines].
  - change (String.concat (String nl EmptyString) (map quoted_line [l])) with (quoted_line l).
    rewrite <- (str_app_empty_r (quoted_line l)).
    rewrite csv_go_line by assumption. simpl.
    rewrite <- (@app_removelast_last _ l EmptyString Hl'). reflexivity.
  - change (String.concat (String nl EmptyString) (map quoted_line (l :: l2 :: lines)))
      with (quoted_line l ++ (String nl EmptyString
                              ++ String.concat (String nl EmptyString) (map quoted_line (l2 :: lines)))).
    cbn [String.append].
    rewrite csv_go_line by assumption. rewrite csv_go_seen_nl, app_nil_l.
    rewrite <- (@app_removelast_last _ l EmptyString Hl').
    rewrite IH by (discriminate || exact Hq).
    rewrite <- app_assoc. reflexivity.
Qed.

(** The records the export writes: header texts, then each entry's
    [field || ''] texts. *)
Definition export_texts (auditLogs : list audit_log) : list (list string) :=
  map (map field_text) (map JStr csvHeaders :: map log_fields auditLogs).

Lemma exportCsv_lines (auditLogs : list audit_log) :
  exportCsv auditLogs
  = String.concat (String nl EmptyString) (map quoted_line (export_texts auditLogs)).
Proof.
  unfold exportCsv, export_texts. f_equal. rewrite map_map.
  apply map_ext. intros row. unfold csv_line, quoted_line. rewrite map_map. reflexivity.
Qed.

(** C5 (as claimed: fails). An entry whose action contains a double quote is
    written without doubling it, and re-reading the file under the quoting
    rule does not give back the entry's field values. *)
Lemma exportCsv_quote_breaks_roundtrip :
  csv_parse (exportCsv [demo_quoted_log]) <> export_texts [demo_quoted_log].
Proof. vm_compute. intros H. discriminate H. Qed.

(** C5 (amended). The export consists of the header row with the fixed
    column order and one row per entry, joined by line feeds; each field is
    [field || ''] (so [null] and [false] become empty) wrapped in double
    quotes, with internal quotes left as they are. When no exported field
    text contains a double quote, re-reading the file under the quoting
    rule gives exactly N + 1 records: the header and, for each entry, the
    texts of its fields. *)
Theorem exportCsv_roundtrip (auditLogs : list audit_log) :
  forallb (fun l => forallb (fun v => no_dq (field_text v)) (log_fields l)) auditLogs = true ->
  csv_parse (exportCsv auditLogs)
  = csvHeaders :: map (fun l => map field_text (log_fields l)) auditLogs
  /\ List.length (csv_parse (exportCsv auditLogs)) = S (List.length auditLogs).
Proof.
  intros Hq.
  assert (E : csv_parse (exportCsv auditLogs) = export_texts auditLogs).
  { unfold csv_parse. rewrite exportCsv_lines.
    rewrite csv_go_lines; [reflexivity | discriminate |].
    unfold export_texts. simpl map at 1. cbn [forallb].
    rewrite andb_true_iff. split; [reflexivity|].
    rewrite map_map. rewrite forallb_forall. intros x Hx.
    apply in_map_iff in Hx as [l [<- Hl]].
    rewrite forallb_forall in Hq. specialize (Hq l Hl).
    simpl in Hq |- *. exact Hq. }
  rewrite E. unfold export_texts. split.
  - simpl. rewrite map_map. reflexivity.
  - simpl. rewrite !length_map. reflexivity.
Qed.

(* ------------------------------------------------------------------ *)
(** ** Witnesses: the theorems at concrete inputs *)

Lemma login_lockout_spec_witness :
  demo_find "a@b.c" = Some demo_locked_user
  /\ exists tr,
       run (login demo_store true demo_find (fun _ _ => true) 1000 "a@b.c" "right-password")
       = (Throw (auth_error "Account is temporarily locked due to multiple failed login attempts"), tr)
       /\ ~ In EComparePassword tr /\ (forall v, ~ In (ESave v) tr).
Proof.
  split; [reflexivity|].
  apply (proj1 (login_lockout_spec demo_store demo_find "a@b.c" demo_locked_user 1000 eq_refl)
               2000000); reflexivity.
Defined.

Lemma classify_total_deterministic_witness :
  map entry_draft (audited (snd (run (createAuditEntry demo_json_parse demo_store
                                         demo_patient_get 200 (JStr "a")))))
  = map entry_draft (audited (snd (run (createAuditEntry demo_json_parse demo_failing_store
                                           demo_patient_get_other 200 (JStr "b"))))).
Proof. apply (proj2 (proj2 classify_total_deterministic)); reflexivity. Defined.

Lemma createAuditEntry_phi_fields_null_or_nonempty_witness :
  (ae_phiFields demo_patient_blank_entry = None
   \/ exists f fs, ae_phiFields demo_patient_blank_entry = Some (f :: fs))
  /\ (ae_phiFields demo_patient_blank_entry = None <->
      (forall k v, In k ["firstName"; "lastName"; "dateOfBirth"; "ssn"; "phone";
                         "email"; "address"; "medicalHistory"] ->
                   js_get (req_body demo_patient_blank_post) k = Ok v -> truthy v = false)
      /\ (forall k v, In k ["name"; "dob"] ->
                      js_get (req_query demo_patient_blank_post) k = Ok v -> truthy v = false)).
Proof.
  apply (createAuditEntry_phi_fields_null_or_nonempty demo_json_parse demo_store
           demo_patient_blank_post 201 (JStr "ok") demo_patient_blank_entry);
    [vm_compute; left; reflexivity | reflexivity].
Defined.

Lemma exportCsv_roundtrip_witness :
  csv_parse (exportCsv [demo_log])
  = csvHeaders :: map (fun l => map field_text (log_fields l)) [demo_log]
  /\ List.length (csv_parse (exportCsv [demo_log])) = S (List.length [demo_log]).
Proof. apply exportCsv_roundtrip. vm_compute. reflexivity. Defined.

Lemma authenticateToken_rejects_stale_token_witness :
  fst (run (authenticateToken demo_store (fun _ => Ok (mk_decoded "u4" 4000))
              (fun _ => Ok (Some demo_changed_user)) demo_token_req))
  <> Ok (CalledNext demo_changed_user).
Proof.
  apply (authenticateToken_rejects_stale_token demo_store (fun _ => Ok (mk_decoded "u4" 4000))
           (fun _ => Ok (Some demo_changed_user)) demo_token_req "tok" (mk_decoded "u4" 4000)
           demo_changed_user 4000500 5000000); reflexivity.
Defined.

Lemma authorization_denials_audited_witness :
  exists e rest,
    snd (run (requireDataAccessLevel "limited" demo_store demo_provider_req)) = EAudit e :: rest
    /\ ae_eventType e = ev_access_denied /\ ae_severity e = sev_medium
    /\ In (ERespond 403 "Insufficient data access level") rest.
Proof.
  apply (proj2 (proj2 (authorization_denials_audited demo_store demo_provider_req demo_user
                          eq_refl)) "limited").
  reflexivity.
Defined.

Lemma createAuditEntry_status_from_code_witness :
  ae_status demo_patient_entry = (if 400 <=? 201 then st_failure else st_success)
  /\ ae_status demo_patient_entry <> st_warning.
Proof.
  apply (createAuditEntry_status_from_code demo_json_parse demo_store demo_patient_post 201
           (JStr "ok") demo_patient_entry).
  vm_compute. left. reflexivity.
Defined.

Lemma auditLogger_skips_exempt_endpoints_witness :
  auditLogger_send demo_json_parse demo_store (demo_request "POST" "/api/auth/login" None)
                   200 (JStr "ok")
  = ([], mk_sent 200 (JStr "ok")).
Proof.
  apply (auditLogger_skips_exempt_endpoints demo_json_parse demo_store
           (demo_request "POST" "/api/auth/login" None) 200 (JStr "ok") "/api/auth/login");
    [vm_compute; right; left; reflexivity | reflexivity].
Defined.

(* ================================================================== *)
(** * Further properties of the code *)

Lemma assoc_lookup_set (k k' : string) (v : jsval) (fs : list (string * jsval)) :
  assoc_lookup k (assoc_set k' v fs) = if String.eqb k k' then v else assoc_lookup k fs.
Proof.
  induction fs as [|[k'' v''] fs IH]; simpl.
  - destruct (String.eqb k k'); reflexivity.
  - destruct (String.eqb_spec k' k'') as [<-|Hne]; simpl.
    + destruct (String.eqb k k'); reflexivity.
    + rewrite IH. destruct (String.eqb_spec k k') as [->|]; [|reflexivity].
      apply String.eqb_neq in Hne. rewrite Hne. reflexivity.
Qed.

Lemma assoc_lookup_in (k : string) (fs : list (string * jsval)) :
  assoc_lookup k fs <> JUndefined -> In k (map fst fs).
Proof.
  induction fs as [|[k' v'] fs IH]; simpl; [congruence|].
  destruct (String.eqb_spec k k') as [->|]; auto.
Qed.

Lemma assoc_set_keys (k : string) (v : jsval) (fs : list (string * jsval)) :
  In k (map fst fs) -> map fst (assoc_set k v fs) = map fst fs.
Proof.
  induction fs as [|[k' v'] fs IH]; simpl; [contradiction|].
  intros H. destruct (String.eqb_spec k k') as [->|Hne]; simpl; [reflexivity|].
  rewrite IH; [reflexivity|]. destruct H; [congruence|assumption].
Qed.

Lemma redact_field_lookup (fs : list (string * jsval)) (f k : string) :
  assoc_lookup k (redact_field fs f)
  = if String.eqb k f
    then (if truthy (assoc_lookup f fs) then JStr "[REDACTED]" else assoc_lookup f fs)
    else assoc_lookup k fs.
Proof.
  unfold redact_field. destruct (truthy (assoc_lookup f fs)).
  - rewrite assoc_lookup_set. reflexivity.
  - destruct (String.eqb_spec k f) as [->|]; reflexivity.
Qed.

Lemma redact_field_keys (fs : list (string * jsval)) (f : string) :
  map fst (redact_field fs f) = map fst fs.
Proof.
  unfold redact_field. destruct (truthy (assoc_lookup f fs)) eqn:Ht; [|reflexivity].
  apply assoc_set_keys, assoc_lookup_in. intros H. rewrite H in Ht. discriminate.
Qed.

Lemma fold_redact_keys (fields : list string) (fs : list (string * jsval)) :
  map fst (fold_left redact_field fields fs) = map fst fs.
Proof.
  revert fs. induction fields as [|f fields IH]; intros fs; simpl; [reflexivity|].
  rewrite IH. apply redact_field_keys.
Qed.

(** [sanitizeRequestBody] returns an object with the keys of the spread body,
    in the same order. A sensitive key ([password], [ssn], [creditCard],
    [cvv]) whose value is truthy reads ["[REDACTED]"]; a falsy sensitive
    value and every other key keep the value of the body. *)
Theorem sanitizeRequestBody_redacts (body : jsval) (k : string) :
  exists fs, sanitizeRequestBody body = JObj fs
  /\ map fst fs = map fst (spread body)
  /\ assoc_lookup k fs
     = if existsb (String.eqb k) sensitiveFields
       then (if truthy (assoc_lookup k (spread body)) then JStr "[REDACTED]"
             else assoc_lookup k (spread body))
       else assoc_lookup k (spread body).
Proof.
  eexists. split; [reflexivity|]. split; [apply fold_redact_keys|].
  unfold sensitiveFields. simpl fold_left. rewrite !redact_field_lookup.
  set (fs := spread body). simpl existsb.
  destruct (String.eqb_spec k "cvv") as [->|H4]; [reflexivity|].
  destruct (String.eqb_spec k "creditCard") as [->|H3]; [reflexivity|].
  destruct (String.eqb_spec k "ssn") as [->|H2]; [reflexivity|].
  destruct (String.eqb_spec k "password") as [->|H1]; reflexivity.
Qed.


Lemma uuid_go_length (s : string) (i : nat) :
  uuid_go s i = true -> (String.length s + i)%nat = 36%nat.
Proof.
  revert i. induction s as [|c s IH]; intros i H; simpl in *.
  - apply Nat.eqb_eq in H. lia.
  - apply andb_prop in H as [_ H]. apply IH in H. lia.
Qed.

Lemma prefix_substring (p s : string) :
  String.prefix p s = true -> substring 0 (String.length p) s = p.
Proof.
  revert s. induction p as [|a p IH]; intros s H; [destruct s; reflexivity|].
  destruct s as [|b s]; simpl in H |- *; [discriminate|].
  destruct (ascii_dec a b) as [->|]; [|discriminate].
  rewrite IH by exact H. reflexivity.
Qed.

Lemma substring_prefix (n : nat) (s : string) :
  String.prefix (substring 0 n s) s = true.
Proof.
  revert n. induction s as [|c s IH]; intros n; destruct n; simpl; try reflexivity.
  destruct (ascii_dec c c) as [_|]; [apply IH|congruence].
Qed.

Lemma includes_prefix (s sub : string) :
  String.prefix sub s = true -> includes s sub = true.
Proof. destruct s; simpl; [auto|intros ->; reflexivity]. Qed.

Lemma prefix_cons (a b : ascii) (p s : string) :
  String.prefix (String a p) (String b s) = true -> a = b /\ String.prefix p s = true.
Proof. simpl. destruct (ascii_dec a b); [auto|discriminate]. Qed.

(** [extractResourceId] returns only a lowercase-hex UUID that follows a
    slash in the URL, and it returns an id whenever the URL holds a slash
    followed by such a UUID. *)
Theorem extractResourceId_spec (url : string) :
  (forall id, extractResourceId url = Some id ->
     is_uuid id = true /\ includes url (String "/" id) = true)
  /\ (forall id, is_uuid id = true -> includes url (String "/" id) = true ->
        exists id', extractResourceId url = Some id').
Proof.
  induction url as [|c rest [IHs IHc]]; split.
  - intros id H. discriminate.
  - intros id _ H. discriminate.
  - intros id H. simpl in H.
    destruct (Ascii.eqb_spec c "/"%char) as [->|Hc].
    + unfold uuid_after_slash in H.
      destruct (is_uuid (substring 0 36 rest)) eqn:Hu.
      * injection H as <-. split; [exact Hu|].
        apply includes_prefix. simpl. apply substring_prefix.
      * destruct (IHs id H) as [H1 H2]. split; [exact H1|].
        simpl. rewrite H2. apply orb_true_r.
    + destruct (IHs id H) as [H1 H2]. split; [exact H1|].
      simpl. rewrite H2. apply orb_true_r.
  - intros id Hu H. cbn [includes] in H. apply orb_prop in H as [H|H].
    + apply prefix_cons in H as [<- H]. cbn [extractResourceId].
      rewrite Ascii.eqb_refl. unfold uuid_after_slash.
      pose proof (uuid_go_length id 0 Hu) as Hl. rewrite Nat.add_0_r in Hl.
      rewrite <- Hl, prefix_substring by exact H. rewrite Hu. eauto.
    + destruct (IHc id Hu H) as [id' Hid]. cbn [extractResourceId].
      destruct (Ascii.eqb c "/"%char); [|eauto].
      destruct (uuid_after_slash rest); eauto.
Qed.


(** In every draft of the request classifier, a 401 or 403 status gives
    severity [high]; a patient resource is [high], marked as PHI access,
    with purpose [patient_care]; a document resource is [high], PHI, with
    purpose [medical_records]; a report resource is PHI with purpose
    [healthcare_operations]. *)
Theorem classify_resource_consistency (method url : string) (statusCode : Z)
    (body query : jsval) (d : draft) :
  classify method url statusCode body query = Ok d ->
  ((statusCode = 401 \/ statusCode = 403) -> d_severity d = sev_high)
  /\ (d_resourceType d = rt_patient ->
      d_severity d = sev_high /\ d_phiAccessed d = true /\ d_purpose d = "patient_care")
  /\ (d_resourceType d = rt_document ->
      d_severity d = sev_high /\ d_phiAccessed d = true /\ d_purpose d = "medical_records")
  /\ (d_resourceType d = rt_report ->
      d_phiAccessed d = true /\ d_purpose d = "healthcare_operations").
Proof.
  unfold classify. intros H. apply rbind_ok_inv in H as [pf [_ H]].
  injection H as <-. cbn [d_severity d_resourceType d_phiAccessed d_purpose].
  unfold determineSeverity, determineResourceType, isPHIAccess, extractPurpose, phiEndpoints.
  cbn [existsb].
  split; [intros [-> | ->]; reflexivity|].
  destruct (includes url "/patients"), (includes url "/documents"), (includes url "/users"),
    (includes url "/reports"), (includes url "/auth"), (includes url "/lab-results");
    cbn [orb]; destruct (_ || _); repeat (intros ? || split); (discriminate || reflexivity).
Qed.

Lemma response_error_message_truthy (json_parse : string -> result jsval) (data : jsval) :
  truthy (response_error_message json_parse data) = true.
Proof.
  unfold response_error_message.
  destruct (rbind _ _) as [v|e] eqn:H; [|reflexivity].
  apply rbind_ok_inv in H as [o [_ H]].
  apply rbind_ok_inv in H as [m [_ H]].
  destruct (truthy m) eqn:Hm; [injection H as <-; exact Hm|].
  apply rbind_ok_inv in H as [er [_ H]]. injection H as <-.
  destruct (truthy er) eqn:He; [exact He|reflexivity].
Qed.

(** An entry written by [createAuditEntry] has no error message for a status
    below 400. From 400 on it has a truthy one, which is ["Request failed"]
    when the response body is a string that [JSON.parse] rejects. *)
Theorem createAuditEntry_error_message
    (json_parse : string -> result jsval) (store : audit_store)
    (req : request) (statusCode : Z) (data : jsval) (e : audit_entry) :
  In (EAudit e) (snd (run (createAuditEntry json_parse store req statusCode data))) ->
  (statusCode < 400 -> ae_errorMessage e = None)
  /\ (400 <= statusCode ->
      exists v, ae_errorMessage e = Some v /\ truthy v = true
      /\ (forall s err, data = JStr s -> json_parse s = Throw err -> v = JStr "Request failed")).
Proof.
  rewrite createAuditEntry_trace. intros H.
  destruct (existsb _ _); [simpl in H; contradiction|].
  destruct (classify _ _ _ _ _) as [d|err]; simpl in H.
  2:{ destruct H as [H|H]; [discriminate|contradiction]. }
  assert (He : e = entry_of_draft req d
                     (if 400 <=? statusCode
                      then Some (response_error_message json_parse data) else None)).
  { destruct H as [H|H]; [injection H as <-; reflexivity|].
    destruct (store _); simpl in H; [|contradiction].
    destruct H as [H|H]; [discriminate|contradiction]. }
  subst e. unfold entry_of_draft. cbn [ae_errorMessage]. split.
  - intros Hlt. replace (400 <=? statusCode) with false by (symmetry; apply Z.leb_gt; lia).
    reflexivity.
  - intros Hge. replace (400 <=? statusCode) with true by (symmetry; apply Z.leb_le; lia).
    eexists. split; [reflexivity|]. split; [apply response_error_message_truthy|].
    intros s err -> Hp. unfold response_error_message. rewrite Hp. reflexivity.
Qed.


Lemma split_on_go_app (c : ascii) (s rest cur : string) :
  includes s (String c EmptyString) = false ->
  split_on_go c (s ++ rest) cur = split_on_go c rest (cur ++ s).
Proof.
  revert cur. induction s as [|a s IH]; intros cur H.
  - simpl. rewrite str_app_empty_r. reflexivity.
  - cbn [includes] in H. apply orb_false_iff in H as [Hp H].
    cbn [String.append split_on_go].
    assert (Hac : Ascii.eqb a c = false).
    { apply Ascii.eqb_neq. intros Heq. rewrite Heq in Hp. simpl in Hp.
      destruct (ascii_dec c c); [destruct s; discriminate|congruence]. }
    rewrite Hac, IH by exact H. rewrite str_app_assoc. reflexivity.
Qed.

(** A header [scheme + ' ' + t], where neither [scheme] nor the non-empty
    [t] holds a space, yields the token [t] (the scheme is not checked); a
    header with no space yields no token. *)
Theorem bearer_token_second_word (scheme t h : string) :
  (includes scheme " " = false -> includes t " " = false -> t <> "" ->
   bearer_token (Some (scheme ++ String " " t)) = Some t)
  /\ (includes h " " = false -> bearer_token (Some h) = None).
Proof.
  split.
  - intros Hs Ht Hne. unfold bearer_token.
    replace (String.eqb (scheme ++ String " " t) "") with false
      by (destruct scheme; reflexivity).
    unfold split_on. rewrite split_on_go_app by exact Hs.
    cbn [split_on_go String.append]. rewrite Ascii.eqb_refl.
    rewrite <- (str_app_empty_r t) at 1. rewrite split_on_go_app by exact Ht.
    cbn [split_on_go String.append nth_error].
    destruct (String.eqb_spec t "") as [->|]; [congruence|reflexivity].
  - intros Hh. unfold bearer_token.
    destruct (String.eqb h ""); [reflexivity|].
    unfold split_on. rewrite <- (str_app_empty_r h).
    rewrite split_on_go_app by exact Hh. reflexivity.
Qed.


(** [/logout] always answers 200 ["Logout successful"] as its last effect;
    it writes one LOGOUT entry when the request carries a token and an
    authenticated user, and nothing otherwise; it saves no user. *)
Theorem logout_always_responds (store : audit_store) (req : request) :
  exists tr,
    run (logout store req) = (Ok tt, app tr [ERespond 200 "Logout successful"])
    /\ audited tr = match bearer_token (req_authorization req), req_user req with
                    | Some _, Some u =>
                        [manual_entry (Some (u_id u)) "LOGOUT" "/api/auth/logout" ev_logout
                                      sev_low st_success None "User logout"]
                    | _, _ => []
                    end
    /\ (forall v, ~ In (ESave v) tr).
Proof.
  unfold run, logout, mbind.
  destruct (bearer_token _), (req_user req) as [u|];
    try (rewrite createManualAuditEntry_run; simpl;
         eexists; split; [reflexivity|];
         split; [destruct (store _); reflexivity|];
         intros v; destruct (store _); simpl; intuition discriminate);
    (exists []; repeat split; auto).
Qed.

(** [/refresh] never writes an audit entry. A missing or falsy
    [refreshToken] is rejected with ["Refresh token is required"] and no
    effect; every other failure is ["Invalid refresh token"]; a success
    needs the token to verify and to name an active user, and yields that
    user's id with [iat = now / 1000]. *)
Theorem refresh_outcomes (verify_refresh : jsval -> result decoded_token)
    (findByPk : string -> result (option user)) (now : Z) (fs : list (string * jsval)) :
  let r := run (refresh verify_refresh findByPk now (JObj fs)) in
  audited (snd r) = []
  /\ (truthy (assoc_lookup "refreshToken" fs) = false ->
      r = (Throw (auth_error "Refresh token is required"), []))
  /\ (forall e, fst r = Throw e ->
      e = auth_error "Refresh token is required" \/ e = auth_error "Invalid refresh token")
  /\ (forall tok, fst r = Ok tok ->
      exists d u, verify_refresh (assoc_lookup "refreshToken" fs) = Ok d
        /\ findByPk (dec_userId d) = Ok (Some u) /\ u_isActive u = true
        /\ tok = mk_decoded (u_id u) (now / 1000)).
Proof.
  cbv zeta. unfold run, refresh, mbind, mlift, mtry, mthrow, respond, emit, mret.
  cbn [js_get]. destruct (truthy (assoc_lookup "refreshToken" fs)) eqn:Ht; cbn [negb].
  - destruct (verify_refresh _) as [d|err] eqn:Hv;
      [destruct (findByPk (dec_userId d)) as [[u|]|err] eqn:Hf;
       [destruct (u_isActive u) eqn:Ha|..]|].
    all: cbn [fst snd app audited].
    all: split; [reflexivity|]; split; [discriminate|].
    all: split; intros x Hx; try discriminate Hx.
    all: try (injection Hx as <-; right; reflexivity).
    injection Hx as <-. exists d, u. auto.
  - cbn [fst snd audited]. split; [reflexivity|]. split; [reflexivity|].
    split; intros x Hx; [|discriminate Hx]. injection Hx as <-. left. reflexivity.
Qed.


(** [checkSessionTimeout] passes a request with no user and leaves its
    last activity unchanged; with no configured timeout it passes and
    records [now]; with [m] minutes it expires the session exactly when more
    than [m] minutes passed since the last activity (taken as 0 when none
    is recorded), writing one SESSION_TIMEOUT entry and answering 401. *)
Theorem checkSessionTimeout_spec (store : audit_store) (autoLogoutMinutes : option Z)
    (now : Z) (req : request) (lastActivity : option Z) :
  let r := run (checkSessionTimeout store autoLogoutMinutes now req lastActivity) in
  let last := match lastActivity with Some l => l | None => 0 end in
  (req_user req = None -> r = (Ok (TNext lastActivity), []))
  /\ (forall u, req_user req = Some u ->
      (autoLogoutMinutes = None -> r = (Ok (TNext (Some now)), []))
      /\ (forall m, autoLogoutMinutes = Some m ->
          (now - last <= m * 60 * 1000 -> r = (Ok (TNext (Some now)), []))
          /\ (m * 60 * 1000 < now - last ->
              fst r = Ok TExpired
              /\ audited (snd r) = [session_timeout_entry u req]
              /\ In (ERespond 401 "Your session has expired. Please login again.") (snd r)))).
Proof.
  cbv zeta. unfold run, checkSessionTimeout. split.
  - intros ->. reflexivity.
  - intros u ->. split.
    + intros ->. reflexivity.
    + intros m ->. split.
      * intros Hle. replace (m * 60 * 1000 <? _) with false
          by (symmetry; apply Z.ltb_ge; lia). reflexivity.
      * intros Hlt. replace (m * 60 * 1000 <? _) with true
          by (symmetry; apply Z.ltb_lt; lia).
        unfold audit_create_detached, respond, emit, mret, mbind.
        destruct (store _); cbn; repeat split; auto 6.
Qed.

(** [requireDataAccessLevel] calls [next] exactly for an authenticated user
    whose level ranks at least the required one, and then does nothing else. *)
Lemma requireDataAccessLevel_pass_iff (store : audit_store) (req : request) (u : user)
    (lvl : string) :
  run (requireDataAccessLevel lvl store req) = (Ok (CalledNext u), [])
  <-> req_user req = Some u /\ accessLevel lvl <= accessLevel (u_dataAccessLevel u).
Proof.
  unfold run, requireDataAccessLevel. destruct (req_user req) as [v|]; split.
  - destruct (accessLevel (u_dataAccessLevel v) <? accessLevel lvl) eqn:Hl.
    + unfold audit_create_detached, respond, emit, mret, mbind.
      destruct (store _); discriminate.
    + intros H. injection H as <-. apply Z.ltb_ge in Hl. auto.
  - intros [Hv Hl]. injection Hv as ->.
    replace (accessLevel (u_dataAccessLevel u) <? accessLevel lvl) with false
      by (symmetry; apply Z.ltb_ge; exact Hl). reflexivity.
  - unfold respond, emit, mret, mbind. discriminate.
  - intros [H _]. discriminate.
Qed.

(** The three authorization middlewares call [next], with no other effect,
    exactly when: the user's role is listed ([requireRole]); the user
    completed HIPAA training ([requireHIPAATraining]); the user's level
    ranks at least the required one ([requireDataAccessLevel]). Without a
    user each of them answers 401 ["Authentication required"] and does
    nothing else. *)
Theorem gates_pass_iff (store : audit_store) (req : request) (u : user) :
  (forall roles,
     run (requireRole roles store req) = (Ok (CalledNext u), [])
     <-> req_user req = Some u /\ In (u_role u) roles)
  /\ (run (requireHIPAATraining store req) = (Ok (CalledNext u), [])
      <-> req_user req = Some u /\ u_hipaaTrainingCompleted u = true)
  /\ (forall requiredLevel,
        run (requireDataAccessLevel requiredLevel store req) = (Ok (CalledNext u), [])
        <-> req_user req = Some u
            /\ accessLevel requiredLevel <= accessLevel (u_dataAccessLevel u))
  /\ (req_user req = None ->
      forall roles requiredLevel,
        run (requireRole roles store req) = (Ok Responded, [ERespond 401 "Authentication required"])
        /\ run (requireHIPAATraining store req)
           = (Ok Responded, [ERespond 401 "Authentication required"])
        /\ run (requireDataAccessLevel requiredLevel store req)
           = (Ok Responded, [ERespond 401 "Authentication required"])).
Proof.
  unfold run, requireRole, requireHIPAATraining, requireDataAccessLevel.
  split; [|split; [|split]].
  - intros roles. destruct (req_user req) as [v|]; split.
    + destruct (existsb (String.eqb (u_role v)) roles) eqn:Hr.
      * intros H. injection H as <-. split; [reflexivity|].
        apply existsb_exists in Hr as [x [Hx Hxe]].
        apply String.eqb_eq in Hxe. subst x. exact Hx.
      * unfold audit_create_detached, respond, emit, mret, mbind.
        destruct (store _); discriminate.
    + intros [Hv Hin]. injection Hv as ->.
      replace (existsb (String.eqb (u_role u)) roles) with true; [reflexivity|].
      symmetry. apply existsb_exists. exists (u_role u).
      split; [exact Hin | apply String.eqb_refl].
    + unfold respond, emit, mret, mbind. discriminate.
    + intros [H _]. discriminate.
  - destruct (req_user req) as [v|]; split.
    + destruct (u_hipaaTrainingCompleted v) eqn:Ht.
      * intros H. injection H as <-. auto.
      * unfold audit_create, respond, emit, mret, mthrow, mbind.
        destruct (store _); discriminate.
    + intros [Hv Ht]. injection Hv as ->. rewrite Ht. reflexivity.
    + unfold respond, emit, mret, mbind. discriminate.
    + intros [H _]. discriminate.
  - intros lvl. exact (requireDataAccessLevel_pass_iff store req u lvl).
  - intros H roles lvl. rewrite H. repeat split.
Qed.

(** The audit routes ([requireRole(['admin'])] then
    [requireDataAccessLevel('full')]) let a request through, with no other
    effect, exactly when its user is an admin with level [full]; an admin
    with any other level gets 403 ["Insufficient data access level"]. *)
Theorem audit_routes_gate_iff (store : audit_store) (req : request) (u : user) :
  (run (audit_routes_gate store req) = (Ok (CalledNext u), [])
   <-> req_user req = Some u /\ u_role u = "admin" /\ u_dataAccessLevel u = "full")
  /\ (req_user req = Some u -> u_role u = "admin" -> u_dataAccessLevel u <> "full" ->
      fst (run (audit_routes_gate store req)) = Ok Responded
      /\ In (ERespond 403 "Insufficient data access level")
            (snd (run (audit_routes_gate store req)))).
Proof.
  assert (Hfull : forall x, accessLevel "full" <= accessLevel x <-> x = "full").
  { intros x. unfold accessLevel. cbn.
    destruct (String.eqb_spec x "readonly") as [->|]; [split; [lia|discriminate]|].
    destruct (String.eqb_spec x "limited") as [->|]; [split; [lia|discriminate]|].
    destruct (String.eqb_spec x "full") as [->|]; [split; reflexivity|].
    split; [lia|congruence]. }
  unfold run, audit_routes_gate, requireRole, mbind at 1.
  destruct (req_user req) as [v|] eqn:Hv.
  - cbn [existsb]. rewrite orb_false_r.
    destruct (String.eqb_spec (u_role v) "admin") as [Hr|Hr].
    + unfold mret at 1. cbn beta iota. split.
      * pose proof (requireDataAccessLevel_pass_iff store req u "full") as G.
        unfold run in G. rewrite G, Hv, Hfull.
        split; [intros [Hvu Hl]; injection Hvu as <-; auto|].
        intros [Hvu [_ Hl]]. injection Hvu as <-. auto.
      * intros Hvu Hadm Hl. injection Hvu as <-.
        unfold requireDataAccessLevel. rewrite Hv.
        replace (accessLevel (u_dataAccessLevel v) <? accessLevel "full") with true.
        -- unfold audit_create_detached, respond, emit, mret, mbind.
           destruct (store _); cbn; split; auto 6.
        -- symmetry. apply Z.ltb_lt. apply Z.nle_gt. rewrite Hfull. exact Hl.
    + unfold audit_create_detached, respond, emit, mret, mbind.
      split.
      * split; [destruct (store _); discriminate|].
        intros [Hvu [Hadm _]]. injection Hvu as <-. congruence.
      * intros Hvu Hadm. injection Hvu as <-. congruence.
  - unfold respond, emit, mret, mbind. split.
    + split; [discriminate|]. intros [H _]. discriminate.
    + intros H. discriminate.
Qed.


Lemma login_ok_inv (store : audit_store) (validation_ok : bool)
    (findByEmail : string -> option user) (compare : user -> string -> bool)
    (now : Z) (email password : string) (tok : decoded_token) :
  fst (run (login store validation_ok findByEmail compare now email password)) = Ok tok ->
  validation_ok = true
  /\ exists u, findByEmail email = Some u /\ isLocked u now = false
     /\ compare u password = true /\ u_isActive u = true
     /\ tok = mk_decoded (u_id u) (now / 1000).
Proof.
  unfold run, login.
  destruct validation_ok; cbn [negb]; [|discriminate].
  destruct (findByEmail email) as [u|]; cbn [negb].
  - destruct (isLocked u now) eqn:Hl.
    + unfold mbind at 1. rewrite !createManualAuditEntry_run. discriminate.
    + unfold validate_password, mbind at 1 2, emit, mret. cbn [app].
      destruct (compare u password) eqn:Hc; cbn [negb].
      * destruct (u_isActive u) eqn:Ha; cbn [negb].
        -- unfold mbind. cbn beta iota. rewrite !createManualAuditEntry_run.
           unfold respond, emit, mret. cbn. intros H. injection H as <-.
           split; [reflexivity|]. exists u. repeat split; assumption.
        -- unfold mbind. rewrite !createManualAuditEntry_run. discriminate.
      * unfold mbind. cbn beta iota. rewrite !createManualAuditEntry_run. discriminate.
  - unfold mbind. rewrite !createManualAuditEntry_run. discriminate.
Qed.

(** A login succeeds exactly when validation passed, the email names a
    user, the account is not locked, the password matches and the account
    is active; the token then carries the user's id and [iat = now / 1000]. *)
Theorem login_succeeds_iff (store : audit_store) (validation_ok : bool)
    (findByEmail : string -> option user) (compare : user -> string -> bool)
    (now : Z) (email password : string) (tok : decoded_token) :
  fst (run (login store validation_ok findByEmail compare now email password)) = Ok tok
  <-> validation_ok = true
      /\ exists u, findByEmail email = Some u /\ isLocked u now = false
         /\ compare u password = true /\ u_isActive u = true
         /\ tok = mk_decoded (u_id u) (now / 1000).
Proof.
  split; [apply login_ok_inv|].
  unfold run, login.
  intros [-> [u [Hu [Hl [Hc [Ha ->]]]]]]. cbn [negb]. rewrite Hu, Hl.
  unfold validate_password, mbind at 1 2, emit, mret. cbn [app]. rewrite Hc, Ha.
  cbn [negb]. unfold mbind. cbn beta iota. rewrite !createManualAuditEntry_run.
  unfold respond, emit, mret. reflexivity.
Qed.

(** A login for an unknown email is rejected with ["Invalid email or
    password"], writes one LOGIN_ATTEMPT entry without a user id, never
    evaluates a password and saves no user. *)
Theorem login_unknown_email (store : audit_store) (findByEmail : string -> option user)
    (compare : user -> string -> bool) (now : Z) (email password : string) :
  findByEmail email = None ->
  let r := run (login store true findByEmail compare now email password) in
  fst r = Throw (auth_error "Invalid email or password")
  /\ audited (snd r) = [login_entry None "LOGIN_ATTEMPT" ev_failed_login sev_medium
                          st_failure (Some "User not found") "Login attempt"]
  /\ ~ In EComparePassword (snd r) /\ (forall v, ~ In (ESave v) (snd r)).
Proof.
  intros Hn. cbv zeta. unfold run, login. cbn [negb]. rewrite Hn.
  unfold mbind. rewrite !createManualAuditEntry_run. unfold mthrow. cbn.
  destruct (store _); cbn; repeat split; intuition discriminate.
Qed.

(** For an inactive, unlocked account the password is checked first: the
    right password is rejected with ["Account is inactive"] and saves
    nothing, a wrong one is rejected with ["Invalid email or password"] and
    saves the user with one more failed attempt. *)
Theorem login_inactive_account (store : audit_store) (findByEmail : string -> option user)
    (compare : user -> string -> bool) (now : Z) (email password : string) (u : user) :
  findByEmail email = Some u -> isLocked u now = false -> u_isActive u = false ->
  let r := run (login store true findByEmail compare now email password) in
  (compare u password = true ->
     fst r = Throw (auth_error "Account is inactive") /\ (forall v, ~ In (ESave v) (snd r)))
  /\ (compare u password = false ->
      fst r = Throw (auth_error "Invalid email or password")
      /\ In (ESave (record_failed_attempt u now)) (snd r)).
Proof.
  intros Hu Hl Ha. cbv zeta. unfold run, login. cbn [negb]. rewrite Hu, Hl.
  unfold validate_password, mbind at 1 2, emit, mret. cbn [app]. split.
  - intros Hc. rewrite Hc, Ha. unfold negb, mbind. cbn beta iota.
    rewrite !createManualAuditEntry_run. unfold mthrow. cbn.
    destruct (store _); cbn; split; intuition discriminate.
  - intros Hc. rewrite Hc. unfold negb, mbind. cbn beta iota.
    rewrite !createManualAuditEntry_run. unfold mthrow. cbn.
    split; [reflexivity|]. right. left. reflexivity.
Qed.

(** The token a successful login issues, presented to [authenticateToken]
    while the store holds the user as the login saved it, lets the request
    through with no effect exactly when the user has no [passwordChangedAt]
    or it is at most [now] rounded down to the whole second. *)
Theorem login_token_accepted_iff (store store' : audit_store) (findByEmail : string -> option user)
    (compare : user -> string -> bool) (now : Z) (email password : string)
    (tok : decoded_token) (u : user) (verify : string -> result decoded_token)
    (findByPk : string -> result (option user)) (req : request) (t : string) :
  fst (run (login store true findByEmail compare now email password)) = Ok tok ->
  findByEmail email = Some u ->
  bearer_token (req_authorization req) = Some t ->
  verify t = Ok tok ->
  findByPk (u_id u) = Ok (Some (record_successful_login u now)) ->
  (run (authenticateToken store' verify findByPk req)
     = (Ok (CalledNext (record_successful_login u now)), [])
   <-> match u_passwordChangedAt u with
       | None => True
       | Some p => p <= now / 1000 * 1000
       end).
Proof.
  intros Hl Hu Hb Hv Hf.
  apply login_ok_inv in Hl as [_ [u0 [Hu0 [_ [_ [Ha ->]]]]]].
  rewrite Hu in Hu0. injection Hu0 as <-.
  unfold run, authenticateToken, mtry. rewrite Hb.
  unfold mbind at 1 2, mlift. rewrite Hv. cbn [dec_userId]. rewrite Hf.
  cbn beta iota. cbn [u_isActive record_successful_login]. rewrite Ha. cbn [negb].
  unfold stale_token. cbn [u_passwordChangedAt record_successful_login dec_iat].
  destruct (u_passwordChangedAt u) as [p|].
  - destruct (now / 1000 * 1000 <? p) eqn:Hs.
    + apply Z.ltb_lt in Hs. split; [intros H; exfalso; revert H | intros; lia].
      unfold audit_create, respond, emit, mret, mthrow, mbind.
      run_out store'; discriminate.
    + apply Z.ltb_ge in Hs. split; [intros _; exact Hs | intros _; reflexivity].
  - split; [intros _; exact I | intros _; reflexivity].
Qed.


(** [/register] rejects a taken email or NPI before anything else; every
    rejection leaves no effect. A created user is an active [provider]
    with level [limited], no failed attempts, no lockout and no HIPAA
    training; a non-empty password is stored hashed with
    [passwordChangedAt = now]; one USER_REGISTRATION entry is written and
    the answer is 201. *)
Theorem register_outcomes (store : audit_store) (findByEmail findByNPI : string -> option user)
    (insert : user -> option js_error) (hash : string -> string) (newId : string) (now : Z)
    (email password npi : string) :
  let r := run (register store true findByEmail findByNPI insert hash newId now
                         email password npi) in
  (forall v, findByEmail email = Some v ->
     r = (Throw (validation_error "User with this email already exists"), []))
  /\ (findByEmail email = None -> forall v, findByNPI npi = Some v ->
      r = (Throw (validation_error "User with this NPI already exists"), []))
  /\ (forall err, fst r = Throw err -> snd r = [])
  /\ (forall u, fst r = Ok u ->
      findByEmail email = None /\ findByNPI npi = None /\ insert u = None
      /\ u_id u = newId /\ u_email u = email /\ u_role u = "provider"
      /\ u_isActive u = true /\ u_failedLoginAttempts u = 0 /\ u_lockedUntil u = None
      /\ u_hipaaTrainingCompleted u = false /\ u_dataAccessLevel u = "limited"
      /\ (password <> "" -> u_password u = hash password /\ u_passwordChangedAt u = Some now)
      /\ audited (snd r) = [mk_entry (Some newId) "USER_REGISTRATION" "/api/auth/register"
                              ev_create sev_medium st_success None false None
                              (Some rt_user) None "User registration"]
      /\ In (ERespond 201 "User registered successfully") (snd r)).
Proof.
  cbv zeta. unfold run, register. cbn [negb].
  split; [intros v ->; reflexivity|].
  split; [intros -> v ->; reflexivity|].
  destruct (findByEmail email) eqn:He; [split; [intros; reflexivity | discriminate]|].
  destruct (findByNPI npi) eqn:Hn; [split; [intros; reflexivity | discriminate]|].
  destruct (insert (created_user hash newId email password now)) eqn:Hi;
    [split; [intros; reflexivity | discriminate]|].
  unfold mbind. rewrite !createManualAuditEntry_run. unfold respond, emit, mret. cbn.
  split; [discriminate|]. intros u Hu. injection Hu as <-.
  unfold created_user in *.
  destruct (String.eqb_spec password "") as [Hp|Hp]; cbn;
    (destruct (store _); cbn; repeat split; auto 8; try contradiction).
Qed.

(** A freshly registered user never reaches the report routes or the audit
    routes; after [/complete-hipaa-training] saves the user, the report
    routes let it through with no effect, while the audit routes still
    refuse it. *)
Theorem registered_user_gates (store : audit_store) (hash : string -> string)
    (newId email password : string) (now : Z) (req : request) :
  let u := created_user hash newId email password now in
  req_user req = Some u ->
  (forall v, fst (run (report_routes_gate store req)) <> Ok (CalledNext v))
  /\ fst (run (audit_routes_gate store req)) = Ok Responded
  /\ (forall req', req_user req' = Some (training_update u) ->
      run (report_routes_gate store req') = (Ok (CalledNext (training_update u)), [])
      /\ fst (run (audit_routes_gate store req')) = Ok Responded).
Proof.
  assert (Hcu : forall hash newId email password now,
    u_role (created_user hash newId email password now) = "provider"
    /\ u_hipaaTrainingCompleted (created_user hash newId email password now) = false
    /\ u_dataAccessLevel (created_user hash newId email password now) = "limited").
  { intros. unfold created_user. destruct (String.eqb _ _); repeat split. }
  cbv zeta. destruct (Hcu hash newId email password now) as [Hr [Ht Hl]].
  set (u := created_user hash newId email password now) in *.
  intros Hu. split; [|split].
  - intros v. unfold run, report_routes_gate, requireHIPAATraining, mbind at 1.
    rewrite Hu, Ht. unfold audit_create, respond, emit, mret, mthrow, mbind.
    destruct (store _); discriminate.
  - unfold run, audit_routes_gate, requireRole, mbind at 1. rewrite Hu, Hr.
    unfold audit_create_detached, respond, emit, mret, mbind.
    destruct (store _); reflexivity.
  - intros req' Hu'. split.
    + unfold run, report_routes_gate, requireHIPAATraining, mbind at 1. rewrite Hu'.
      cbn [training_update u_hipaaTrainingCompleted]. unfold mret at 1.
      unfold requireDataAccessLevel. rewrite Hu'.
      cbn [training_update u_dataAccessLevel]. rewrite Hl. reflexivity.
    + unfold run, audit_routes_gate, requireRole, mbind at 1. rewrite Hu'.
      cbn [training_update u_role]. rewrite Hr.
      unfold audit_create_detached, respond, emit, mret, mbind.
      destruct (store _); reflexivity.
Qed.

(** [/change-password] never saves a user and never writes an audit entry;
    every request ends in an error. A body that is [undefined] or [null]
    fails the destructuring with a [TypeError]. Otherwise: without a user
    the request fails with "Authentication required"; a current password
    that is not a string makes bcrypt reject with "Illegal arguments"; a
    wrong one fails with "Current password is incorrect"; with the right
    one, a new password that is [undefined] or [null] fails the read of its
    length with a [TypeError], and any other value with "New password does
    not meet requirements". *)
Theorem changePassword_outcomes (store : audit_store) (save : jsval -> result string)
    (compare : user -> string -> bool) (minLength : option Z) (now : Z) (req : request) :
  let r := run (changePassword store save compare minLength now req) in
  (forall v, ~ In (ESave v) (snd r)) /\ audited (snd r) = []
  /\ (req_body req = JUndefined \/ req_body req = JNull ->
      exists msg, fst r = Throw (mk_error "TypeError" msg))
  /\ (forall cur nw,
        js_get (req_body req) "currentPassword" = Ok cur ->
        js_get (req_body req) "newPassword" = Ok nw ->
        fst r = Throw
          (match req_user req with
           | None => auth_error "Authentication required"
           | Some u =>
               match cur with
               | JStr s =>
                   if compare u s then
                     match nw with
                     | JUndefined | JNull =>
                         mk_error "TypeError"
                           "Cannot read properties of null or undefined (reading length)"
                     | _ => validation_error "New password does not meet requirements"
                     end
                   else auth_error "Current password is incorrect"
               | _ => mk_error "Error" ("Illegal arguments: " ++ js_typeof cur ++ ", string")
               end
           end)).
Proof.
  cbv zeta.
  destruct (changePassword_no_save store save compare minLength now req) as [Hs Ha].
  split; [exact Hs|]. split; [exact Ha|]. split.
  - intros [H|H]; unfold run, changePassword, mbind, mlift, js_destructure; rewrite H;
      eexists; reflexivity.
  - intros cur nw Hc Hn.
    assert (Hd : forall k, js_destructure (req_body req) k = js_get (req_body req) k).
    { intro k. destruct (req_body req); try reflexivity; cbn in Hc; discriminate. }
    unfold run, changePassword, mbind, mlift. rewrite !Hd, Hc, Hn.
    destruct (req_user req) as [u|]; [|reflexivity].
    unfold bcrypt_compare, mbind, emit, mret, mthrow. cbn beta iota.
    destruct cur; try reflexivity.
    destruct (compare u s); cbn [negb app]; [|reflexivity].
    destruct nw as [| | | |? |fs|?]; unfold js_length, password_guard, mbind, mlift;
      cbn [js_get]; destruct minLength as [m|]; try reflexivity;
      try destruct (assoc_lookup "length" fs); try destruct (_ <? m); reflexivity.
Qed.


Lemma app_error_status_range (cls : string) (s : Z) :
  app_error_status cls = Some s -> 400 <= s <= 409.
Proof.
  unfold app_error_status.
  repeat (destruct (String.eqb _ _); [intros H; injection H as <-; lia|]).
  discriminate.
Qed.

Lemma errorHandler_app_run (store : audit_store) (node_env : string) (req : request)
    (e : js_error) (s : Z) (tr : list effect) :
  app_error_status (err_name e) = Some s ->
  errorHandler store node_env req (error_object e) tr
  = (Ok (mk_reply s "Server Error" (error_reply_message node_env (err_message e))),
     app tr (app (EConsoleError "Error occurred:" (mk_error "Error" (err_message e))
                  :: EAudit (system_error_entry req (err_message e))
                  :: match store (system_error_entry req (err_message e)) with
                     | None => []
                     | Some err => [EConsoleError "Error creating manual audit entry:" err]
                     end)
                 [ERespond s (error_reply_message node_env (err_message e))])).
Proof.
  intros Hs. pose proof (app_error_status_range _ _ Hs) as Hr.
  unfold errorHandler, error_object. rewrite Hs.
  unfold mbind at 1, emit at 1. cbn beta iota.
  unfold mbind at 1. rewrite createManualAuditEntry_run. cbn beta iota.
  cbn [th_name th_message th_statusCode th_code code_is String.eqb Ascii.eqb Bool.eqb andb].
  replace (s =? 0) with false by (symmetry; apply Z.eqb_neq; lia).
  unfold reply, respond, emit, mret, mbind. cbn beta iota.
  unfold error_reply_message, system_error_entry.
  rewrite <- !app_assoc. reflexivity.
Qed.

(** For an error of one of the application's classes, [errorHandler]
    answers with the class's status and error ["Server Error"] (a
    [ValidationError] included), with the message hidden in production and
    ["Internal Server Error"] for an empty one; it writes one system_error
    entry of severity [high]. *)
Theorem errorHandler_app_errors (store : audit_store) (node_env : string) (req : request)
    (e : js_error) (s : Z) :
  app_error_status (err_name e) = Some s ->
  let r := run (errorHandler store node_env req (error_object e)) in
  fst r = Ok (mk_reply s "Server Error" (error_reply_message node_env (err_message e)))
  /\ audited (snd r) = [system_error_entry req (err_message e)]
  /\ In (ERespond s (error_reply_message node_env (err_message e))) (snd r).
Proof.
  intros Hs. cbv zeta. unfold run. rewrite (errorHandler_app_run store node_env req e s [] Hs).
  cbn [fst snd app]. split; [reflexivity|].
  destruct (store _); cbn; split; auto 6.
Qed.

Lemma login_throw_shape (store : audit_store) (findByEmail : string -> option user)
    (compare : user -> string -> bool) (now : Z) (email password : string) (err : js_error) :
  fst (run (login store true findByEmail compare now email password)) = Throw err ->
  exists entry,
    audited (snd (run (login store true findByEmail compare now email password))) = [entry]
    /\ ae_status entry = st_failure
    /\ In err [auth_error "Invalid email or password";
               auth_error "Account is temporarily locked due to multiple failed login attempts";
               auth_error "Account is inactive"].
Proof.
  unfold run, login. cbn [negb].
  destruct (findByEmail email) as [u|].
  - destruct (isLocked u now).
    + unfold mbind. rewrite !createManualAuditEntry_run. unfold mthrow. cbn.
      intros H; injection H as <-.
      eexists; destruct (store _); cbn; (split; [reflexivity|]); split; auto 6.
    + unfold validate_password, mbind at 1 2, emit, mret. cbn [app].
      destruct (compare u password); unfold negb.
      * destruct (u_isActive u).
        -- unfold mbind. cbn beta iota. rewrite !createManualAuditEntry_run.
           unfold respond, emit, mret. discriminate.
        -- unfold mbind. cbn beta iota. rewrite !createManualAuditEntry_run.
           unfold mthrow. cbn. intros H; injection H as <-.
           eexists; destruct (store _); cbn; (split; [reflexivity|]); split; auto 6.
      * unfold mbind. cbn beta iota. rewrite !createManualAuditEntry_run.
        unfold mthrow. cbn. intros H; injection H as <-.
        eexists; destruct (store _); cbn; (split; [reflexivity|]); split; auto 6.
  - unfold mbind. rewrite !createManualAuditEntry_run. unfold mthrow. cbn.
    intros H; injection H as <-.
    eexists; destruct (store _); cbn; (split; [reflexivity|]); split; auto 6.
Qed.

(** For a login whose email and password are strings, every rejected login
    (validation passed) ends in a 401 from the error handler and writes two
    entries: the login handler's own failure entry, then
    a system_error entry with the error message. *)
Theorem login_route_rejection (store : audit_store) (node_env : string) (req : request)
    (findByEmail : string -> option user) (compare : user -> string -> bool) (now : Z)
    (email password : string) (err : js_error) :
  fst (run (login store true findByEmail compare now email password)) = Throw err ->
  let r := run (login_route store node_env req true findByEmail compare now email password) in
  fst r = Ok tt
  /\ In (ERespond 401 (error_reply_message node_env (err_message err))) (snd r)
  /\ exists entry,
       audited (snd r) = [entry; system_error_entry req (err_message err)]
       /\ ae_status entry = st_failure.
Proof.
  intros H. destruct (login_throw_shape _ _ _ _ _ _ _ H) as [entry [Ha [Hst Hin]]].
  assert (Hs : app_error_status (err_name err) = Some 401)
    by (destruct Hin as [<-|[<-|[<-|[]]]]; reflexivity).
  cbv zeta. revert H Ha. unfold run, login_route, mtry, mbind.
  destruct (login store true findByEmail compare now email password []) as [[t|e] tr].
  - discriminate.
  - cbn [fst snd]. intros H Ha. injection H as ->.
    rewrite (errorHandler_app_run store node_env req err 401 tr Hs).
    unfold mret. cbn [fst snd]. split; [reflexivity|]. split.
    + apply in_or_app. right. apply in_or_app. right. left. reflexivity.
    + exists entry. split; [|exact Hst].
      rewrite audited_app, Ha. destruct (store _); reflexivity.
Qed.

(** [PUT /profile] passes to [req.user.update] exactly the allowed fields
    ([firstName], [lastName], [phone], [address], [specialty]) whose body
    value is not [undefined], in that order, with their body values. When
    the update rejects, the request fails with that error, with no audit
    entry and no response of its own; when it resolves, the handler writes
    one PROFILE_UPDATE entry and answers 200. *)
Theorem updateProfile_allowed_fields (store : audit_store)
    (update : list (string * jsval) -> option js_error) (req : request) (u : user)
    (fs : list (string * jsval)) :
  req_user req = Some u -> req_body req = JObj fs ->
  let U := flat_map (fun f => match assoc_lookup f fs with
                              | JUndefined => []
                              | v => [(f, v)]
                              end) allowedFields in
  (forall err, update U = Some err -> run (updateProfile store update req) = (Throw err, []))
  /\ (update U = None ->
      exists tr,
        run (updateProfile store update req) = (Ok U, tr)
        /\ audited tr = [mk_entry (Some (u_id u)) "PROFILE_UPDATE" "/api/auth/profile"
                                  ev_update sev_low st_success None false None (Some rt_user)
                                  None "Profile update"]
        /\ In (ERespond 200 "Profile updated successfully") tr).
Proof.
  intros Hu Hb U.
  assert (Hc : forall fields acc,
    collect_updates (JObj fs) fields acc
    = Ok (app acc (flat_map (fun f => match assoc_lookup f fs with
                                      | JUndefined => []
                                      | v => [(f, v)]
                                      end) fields))).
  { induction fields as [|f rest IH]; intros acc.
    - cbn. rewrite app_nil_r. reflexivity.
    - cbn [collect_updates js_get rbind flat_map]. rewrite IH, app_assoc.
      destruct (assoc_lookup f fs); cbn [app]; rewrite ?app_nil_r; reflexivity. }
  unfold run, updateProfile. rewrite Hu, Hb.
  unfold mbind at 1, mlift. rewrite Hc. cbn [app]. fold U. split.
  - intros err He. unfold mbind. rewrite He. reflexivity.
  - intros He. unfold mbind. rewrite He. unfold mret at 1. cbn beta iota.
    rewrite createManualAuditEntry_run. unfold respond, emit, mret.
    cbn. eexists. split; [reflexivity|].
    destruct (store _); cbn; split; auto 6.
Qed.

(** ** Witnesses of the further properties *)

Lemma classify_resource_consistency_witness :
  classify "POST" "/api/patients" 201 (JObj [("firstName", JStr "Ann")]) (JObj [])
  = Ok demo_patient_draft
  /\ d_severity demo_patient_draft = sev_high /\ d_phiAccessed demo_patient_draft = true
  /\ d_purpose demo_patient_draft = "patient_care".
Proof.
  assert (H : classify "POST" "/api/patients" 201 (JObj [("firstName", JStr "Ann")]) (JObj [])
              = Ok demo_patient_draft) by (vm_compute; reflexivity).
  split; [exact H|].
  apply (proj1 (proj2 (classify_resource_consistency "POST" "/api/patients" 201
                         (JObj [("firstName", JStr "Ann")]) (JObj []) demo_patient_draft H))).
  reflexivity.
Defined.

Lemma createAuditEntry_error_message_witness :
  In (EAudit (entry_of_draft demo_patient_post
                (mk_draft ev_create sev_high st_failure true (Some ["name"]) rt_patient
                          "patient_care")
                (Some (JStr "Request failed"))))
     (snd (run (createAuditEntry demo_bad_json_parse demo_store demo_patient_post 404
                                 (JStr "x"))))
  /\ ae_errorMessage (entry_of_draft demo_patient_post
                        (mk_draft ev_create sev_high st_failure true (Some ["name"]) rt_patient
                                  "patient_care")
                        (Some (JStr "Request failed"))) = Some (JStr "Request failed").
Proof.
  assert (H : In (EAudit (entry_of_draft demo_patient_post
                            (mk_draft ev_create sev_high st_failure true (Some ["name"])
                                      rt_patient "patient_care")
                            (Some (JStr "Request failed"))))
                 (snd (run (createAuditEntry demo_bad_json_parse demo_store demo_patient_post 404
                                             (JStr "x")))))
    by (vm_compute; left; reflexivity).
  split; [exact H|].
  destruct (proj2 (createAuditEntry_error_message demo_bad_json_parse demo_store
                     demo_patient_post 404 (JStr "x") _ H) ltac:(lia)) as [v [Hv [_ Hp]]].
  rewrite Hv, (Hp "x" (mk_error "SyntaxError" "Unexpected token") eq_refl eq_refl).
  reflexivity.
Defined.

Lemma bearer_token_second_word_witness :
  bearer_token (Some "Basic abc") = Some "abc" /\ bearer_token (Some "abc") = None.
Proof.
  split.
  - apply (proj1 (bearer_token_second_word "Basic" "abc" "abc")); [reflexivity|reflexivity|discriminate].
  - apply (proj2 (bearer_token_second_word "Basic" "abc" "abc")). reflexivity.
Defined.

Lemma checkSessionTimeout_spec_witness :
  fst (run (checkSessionTimeout demo_store (Some 15) 1000000 demo_provider_req None))
  = Ok TExpired.
Proof.
  pose proof (checkSessionTimeout_spec demo_store (Some 15) 1000000 demo_provider_req None)
    as [_ H]. cbv zeta in H.
  apply (proj2 (proj2 (H demo_user eq_refl) 15 eq_refl)). lia.
Defined.

Lemma login_unknown_email_witness :
  fst (run (login demo_store true demo_find (fun _ _ => true) 0 "x@y.z" "pw"))
  = Throw (auth_error "Invalid email or password").
Proof.
  pose proof (login_unknown_email demo_store demo_find (fun _ _ => true) 0 "x@y.z" "pw"
                eq_refl) as H.
  cbv zeta in H. apply H.
Defined.

Lemma login_inactive_account_witness :
  fst (run (login demo_store true demo_find_inactive (fun _ _ => false) 1000 "i@j.k" "wrong"))
  = Throw (auth_error "Invalid email or password")
  /\ In (ESave (record_failed_attempt demo_inactive_user 1000))
        (snd (run (login demo_store true demo_find_inactive (fun _ _ => false) 1000
                         "i@j.k" "wrong"))).
Proof.
  pose proof (login_inactive_account demo_store demo_find_inactive (fun _ _ => false) 1000
                "i@j.k" "wrong" demo_inactive_user eq_refl eq_refl eq_refl) as H.
  cbv zeta in H. apply (proj2 H). reflexivity.
Defined.

Lemma login_token_accepted_iff_witness :
  run (authenticateToken demo_store (fun _ => Ok (mk_decoded "u7" 5000))
         (fun _ => Ok (Some (record_successful_login demo_fresh_user 5000700)))
         demo_token_req)
  <> (Ok (CalledNext (record_successful_login demo_fresh_user 5000700)), []).
Proof.
  intros H.
  apply (login_token_accepted_iff demo_store demo_store demo_find_fresh (fun _ _ => true)
           5000700 "n@o.p" "pw" (mk_decoded "u7" 5000) demo_fresh_user
           (fun _ => Ok (mk_decoded "u7" 5000))
           (fun _ => Ok (Some (record_successful_login demo_fresh_user 5000700)))
           demo_token_req "tok" ltac:(vm_compute; reflexivity) eq_refl
           ltac:(vm_compute; reflexivity) eq_refl eq_refl) in H.
  cbn in H. lia.
Defined.

Lemma registered_user_gates_witness :
  fst (run (audit_routes_gate demo_store
              (demo_request "GET" "/api/audit" (Some demo_registered_user)))) = Ok Responded
  /\ run (report_routes_gate demo_store
            (demo_request "GET" "/api/reports" (Some (training_update demo_registered_user))))
     = (Ok (CalledNext (training_update demo_registered_user)), []).
Proof.
  destruct (registered_user_gates demo_store (fun pw => "hash:" ++ pw) "u8" "q@r.s"
              "Secret-Pass-1" 0 (demo_request "GET" "/api/audit" (Some demo_registered_user))
              eq_refl) as [_ [H1 H2]].
  split; [exact H1|].
  apply (H2 (demo_request "GET" "/api/reports" (Some (training_update demo_registered_user)))
            eq_refl).
Defined.

Lemma errorHandler_app_errors_witness :
  fst (run (errorHandler demo_store "development"
              (demo_request "POST" "/api/auth/register" None)
              (error_object (validation_error "Validation failed"))))
  = Ok (mk_reply 400 "Server Error" "Validation failed").
Proof.
  pose proof (errorHandler_app_errors demo_store "development"
                (demo_request "POST" "/api/auth/register" None)
                (validation_error "Validation failed") 400 eq_refl) as H.
  cbv zeta in H. rewrite (proj1 H). reflexivity.
Defined.

Lemma login_route_rejection_witness :
  In (ERespond 401 "Invalid email or password")
     (snd (run (login_route demo_store "development"
                  (demo_request "POST" "/api/auth/login" None) true demo_find
                  (fun _ _ => true) 0 "x@y.z" "pw"))).
Proof.
  pose proof (login_route_rejection demo_store "development"
                (demo_request "POST" "/api/auth/login" None) demo_find (fun _ _ => true) 0
                "x@y.z" "pw" (auth_error "Invalid email or password")
                ltac:(vm_compute; reflexivity)) as H.
  cbv zeta in H. exact (proj1 (proj2 H)).
Defined.

Lemma updateProfile_allowed_fields_witness :
  run (updateProfile demo_store (fun _ => Some demo_profile_rejection) demo_profile_req)
  = (Throw demo_profile_rejection, [])
  /\ exists tr, run (updateProfile demo_store (fun _ => None) demo_profile_req)
               = (Ok [("firstName", JStr "Ann")], tr).
Proof.
  split.
  - apply (proj1 (updateProfile_allowed_fields demo_store (fun _ => Some demo_profile_rejection)
                    demo_profile_req demo_user
                    [("firstName", JStr "Ann"); ("role", JStr "admin"); ("phone", JUndefined)]
                    eq_refl eq_refl) demo_profile_rejection).
    reflexivity.
  - destruct (proj2 (updateProfile_allowed_fields demo_store (fun _ => None)
                       demo_profile_req demo_user
                       [("firstName", JStr "Ann"); ("role", JStr "admin"); ("phone", JUndefined)]
                       eq_refl eq_refl) eq_refl) as [tr [H _]].
    exists tr. exact H.
Defined.
